(** * oa-verify: document-status verifiers

    A shallow embedding of the token-registry status verifier
    (src/verifiers/documentStatus/tokenRegistryStatus/
    openAttestationEthereumTokenRegistryStatus.ts), of the DID-signed status
    verifier and of the document-store [execute] wrapper, together with the
    properties their specification states about the fragments they produce.

    Asynchronous code is modelled by explicit effect passing: a computation
    returns its outcome (a value or a thrown error) together with the list of
    capability calls it made, in the order it made them. *)

From Stdlib Require Import String Ascii List ZArith Bool Lia DecimalString.
Import ListNotations.
Local Open Scope string_scope.
Local Open Scope list_scope.

(** ** JavaScript values *)

(** A thrown value.  Everything this code throws or catches is an [Error]
    object; the handlers only ever read its [message]. *)
Record JsError : Type := NewError { err_message : string }.

(** Outcome of a computation that may throw. *)
Inductive result (A : Type) : Type :=
| Ok (a : A)
| Throw (e : JsError).
Arguments Ok {A} a.
Arguments Throw {A} e.

(** Template-literal interpolation of a number: [`${n}`]. *)
Definition numberToString (n : nat) : string :=
  NilZero.string_of_uint (Nat.to_uint n).

(** The double-quote character, for the messages that contain one. *)
Definition dquote : string := String "034"%char EmptyString.

(** ** Effects: outcome plus trace of capability calls *)

Module Eff.

Definition M (E A : Type) : Type := result A * list E.

Definition ret {E A} (a : A) : M E A := (Ok a, []).

Definition throw {E A} (e : JsError) : M E A := (Throw e, []).

Definition emit {E} (ev : E) : M E unit := (Ok tt, [ev]).

Definition lift {E A} (r : result A) : M E A := (r, []).

Definition bind {E A B} (m : M E A) (k : A -> M E B) : M E B :=
  match m with
  | (Ok a, t) => let (r, t') := k a in (r, t ++ t')
  | (Throw e, t) => (Throw e, t)
  end.

(** [try { m } catch (e) { return h e }] with a handler that cannot throw. *)
Definition tryCatch {E A} (m : M E A) (h : JsError -> A) : A * list E :=
  match m with
  | (Ok a, t) => (a, t)
  | (Throw e, t) => (h e, t)
  end.

End Eff.

Declare Scope eff_scope.
Delimit Scope eff_scope with eff.
Notation "x <- m ;; k" := (Eff.bind m (fun x => k))
  (at level 61, m at next level, right associativity) : eff_scope.
Notation "m ;;; k" := (Eff.bind m (fun _ => k))
  (at level 61, right associativity) : eff_scope.

(** ** types/core and types/error *)

Module Core.

Inductive VerificationFragmentStatus : Type := VALID | INVALID | ERROR | SKIPPED.

Inductive VerificationFragmentType : Type := DOCUMENT_STATUS.

(** [{code, codeString, message}] *)
Record Reason : Type := mkReason {
code : Z;
codeString : string;
message : string
}.

(** A numeric TypeScript enum of status codes: the two members every verifier
  uses, and the reverse mapping [Enum[value]] from a value to its name. *)
Record StatusCodeEnum : Type := mkStatusCodeEnum {
enum_SKIPPED : Z;
enum_UNEXPECTED_ERROR : Z;
enum_name : Z -> string
}.

(** A verification fragment; [data] and [reason] are optional properties. *)
Record VerificationFragment (D : Type) : Type := mkFragment {
name : string;
type : VerificationFragmentType;
status : VerificationFragmentStatus;
data : option D;
reason : option Reason
}.
Arguments mkFragment {D}.
Arguments name {D}.
Arguments type {D}.
Arguments status {D}.
Arguments data {D}.
Arguments reason {D}.

End Core.

(** ** Documents (the parts of a wrapped document the verifiers read) *)

Inductive DocumentVersion : Type := V2 | V3.

Inductive RevocationType : Type :=
| NONE
| Mechanism (tag : string).

Record Revocation : Type := mkRevocation { revocationType : RevocationType }.

Record Issuer : Type := mkIssuer {
  id : string;
  tokenRegistry : option string;
  revocation : option Revocation
}.

Record Signature : Type := mkSignature { merkleRoot : string }.

Record ProofEntry : Type := mkProofEntry {
  verificationMethod : string;
  proofSignature : string
}.

Record WrappedDocument : Type := mkDocument {
  version : DocumentVersion;
  issuers : list Issuer;
  signature : Signature;
  proof : option (list ProofEntry)
}.

(** [utils.isWrappedV3Document] *)
Definition isWrappedV3Document (document : WrappedDocument) : bool :=
  match version document with V3 => true | V2 => false end.

(** ** The token-registry status verifier *)

Module TokenRegistryStatus.

Import Core.

(** [constants.AddressZero] of ethers. *)
Definition AddressZero : string := "0x0000000000000000000000000000000000000000".

(** [v3.Method.TokenRegistry] of open-attestation. *)
Definition Method_TokenRegistry : string := "TOKEN_REGISTRY".

(** What [verify] imports and does not define itself: the helpers of
    common/utils and ./errors, the status-code enum of types/error, and the
    chain-read capability ([TradeTrustErc721Factory.connect] and the
    contract's [ownerOf]).  The two helpers typed to build a [Reason] are
    total; every other one may throw. *)
Record Imports : Type := mkImports {
  Options : Type;
  Provider : Type;
  Contract : Type;
  getIssuersTokenRegistry : WrappedDocument -> result (list string);
  getProvider : Options -> result Provider;
  connect : string -> Provider -> result Contract;
  ownerOf : Contract -> string -> result string;
  contractNotMinted : string -> string -> Reason;
  getErrorReason : JsError -> string -> string -> Reason;
  OpenAttestationEthereumTokenRegistryStatusCode : StatusCodeEnum
}.

(** The calls [verify] makes on the chain-read capability. *)
Inductive ChainCall : Type :=
| CallGetProvider
| CallConnect (tokenRegistry : string)
| CallOwnerOf (tokenRegistry : string) (tokenId : string).

(** [interface Status] *)
Record Status : Type := mkStatus {
  minted : bool;
  address : string;
  reason : option Reason
}.

(** [data.details]: [statuses[0]] for a v3 document, [statuses] otherwise. *)
Inductive Details : Type :=
| First (s : option Status)
| All (statuses : list Status).

(** The [data] property: the minting report, or the caught error. *)
Inductive Data : Type :=
| Minting (mintedOnAll : bool) (details : Details)
| Caught (e : JsError).

Definition Fragment : Type := VerificationFragment Data.

Definition name : string := "OpenAttestationEthereumTokenRegistryStatus".
Definition type : VerificationFragmentType := DOCUMENT_STATUS.

Section Verifier.

Variable I : Imports.
Let codes := OpenAttestationEthereumTokenRegistryStatusCode I.

Definition skip : Fragment :=
  {| Core.name := name;
     Core.type := type;
     Core.status := SKIPPED;
     Core.data := None;
     Core.reason := Some
       {| code := enum_SKIPPED codes;
          codeString := enum_name codes (enum_SKIPPED codes);
          message := "Document issuers doesn't have " ++ dquote ++ "tokenRegistry"
                       ++ dquote ++ " property or " ++ Method_TokenRegistry
                       ++ " method" |} |}.

(** [`0x${document.signature.merkleRoot}`] *)
Definition tokenId (document : WrappedDocument) : string :=
  "0x" ++ merkleRoot (signature document).

(** The callback of [tokenRegistries.map] up to its first [await]:
    [TradeTrustErc721Factory.connect(tokenRegistry, getProvider(options))]. *)
Definition connectRegistry (options : Options I) (tokenRegistry : string)
  : Eff.M ChainCall (Contract I) :=
  (provider <- (Eff.emit CallGetProvider ;;; Eff.lift (getProvider I options)) ;;
   Eff.emit (CallConnect tokenRegistry) ;;;
   Eff.lift (connect I tokenRegistry provider))%eff.

(** The rest of the callback, resumed with the outcome of the awaited
    connection; the [try] around the whole callback catches both parts. *)
Definition mintedStatus (merkleRoot tokenRegistry : string)
           (connected : result (Contract I)) : Status * list ChainCall :=
  Eff.tryCatch
    (tokenRegistryContract <- Eff.lift connected ;;
     owner <- (Eff.emit (CallOwnerOf tokenRegistry merkleRoot) ;;;
               Eff.lift (ownerOf I tokenRegistryContract merkleRoot)) ;;
     let minted := negb (owner =? AddressZero) in
     Eff.ret {| minted := minted;
                address := tokenRegistry;
                reason := if minted then None
                          else Some (contractNotMinted I merkleRoot tokenRegistry) |})%eff
    (fun e => {| minted := false;
                 address := tokenRegistry;
                 reason := Some (getErrorReason I e tokenRegistry merkleRoot) |}).

(** [await Promise.all(tokenRegistries.map(async ...))]: every callback
    runs to its first [await] while [map] iterates, and the callbacks are
    resumed in the same order afterwards.  No callback rejects. *)
Definition registryStatuses (options : Options I) (merkleRoot : string)
           (tokenRegistries : list string) : list Status * list ChainCall :=
  let started := map (connectRegistry options) tokenRegistries in
  let settled := map (fun p => mintedStatus merkleRoot (fst p) (fst (snd p)))
                     (combine tokenRegistries started) in
  (map fst settled, concat (map snd started) ++ concat (map snd settled)).

(** Lines 73-88: the reduction over the statuses. *)
Definition reduceStatuses (document : WrappedDocument) (statuses : list Status)
  : Fragment :=
  let details := if isWrappedV3Document document
                 then First (nth_error statuses 0) else All statuses in
  match find (fun status => negb (minted status)) statuses with
  | Some notMinted =>
      {| Core.name := name;
         Core.type := type;
         Core.data := Some (Minting false details);
         Core.reason := reason notMinted;
         Core.status := INVALID |}
  | None =>
      {| Core.name := name;
         Core.type := type;
         Core.data := Some (Minting true details);
         Core.reason := None;
         Core.status := VALID |}
  end.

(** [new Error(`Only one token registry is allowed. Found ${n}`)] *)
Definition tooManyRegistries (n : nat) : JsError :=
  NewError ("Only one token registry is allowed. Found " ++ numberToString n).

(** The body of the outer [try]. *)
Definition verifyBody (document : WrappedDocument) (options : Options I)
  : Eff.M ChainCall Fragment :=
  (tokenRegistries <- Eff.lift (getIssuersTokenRegistry I document) ;;
   (if (1 <? length tokenRegistries)%nat
    then Eff.throw (tooManyRegistries (length tokenRegistries))
    else Eff.ret tt) ;;;
   let merkleRoot := tokenId document in
   statuses <- (let (s, t) := registryStatuses options merkleRoot tokenRegistries
                in (Ok s, t)) ;;
   Eff.ret (reduceStatuses document statuses))%eff.

(** The outer [catch]. *)
Definition unexpectedError (e : JsError) : Fragment :=
  {| Core.name := name;
     Core.type := type;
     Core.data := Some (Caught e);
     Core.reason := Some
       {| message := err_message e;
          code := enum_UNEXPECTED_ERROR codes;
          codeString := enum_name codes (enum_UNEXPECTED_ERROR codes) |};
     Core.status := ERROR |}.

Definition verify (document : WrappedDocument) (options : Options I)
  : Fragment * list ChainCall :=
  Eff.tryCatch (verifyBody document options) unexpectedError.

End Verifier.

(** [isWrappedV2Document], lines 15-17: [document.data && document.data.issuers].
    A v2 document has the issuer array [data.issuers], and an array is
    truthy; a v3 document has no [data.issuers]. *)
Definition isWrappedV2Document (document : WrappedDocument) : bool :=
  match version document with V2 => true | V3 => false end.

(** ["tokenRegistry" in issuer] *)
Definition hasTokenRegistry (issuer : Issuer) : bool :=
  match tokenRegistry issuer with Some _ => true | None => false end.

Section Test.

(** [getData(document).proof.method] of a v3 document (open-attestation). *)
Variable proofMethod : WrappedDocument -> string.

(** [test], lines 36-45. *)
Definition test (document : WrappedDocument) : bool :=
  if isWrappedV3Document document
  then proofMethod document =? Method_TokenRegistry
  else if isWrappedV2Document document
       then existsb hasTokenRegistry (issuers document)
       else false.

End Test.

End TokenRegistryStatus.

(** ** The DID-signed status verifier *)

Module DidSignedDocumentStatus.

Import Core.

(** What the key-resolution capability resolves a DID to. *)
Record PublicKey : Type := mkPublicKey {
  keyId : string;
  keyType : string;
  controller : string;
  ethereumAddress : string
}.

(** The external capabilities: key resolution (fallible) and signature
    verification ("verify(signature, key) -> bool"). *)
Record Capabilities : Type := mkCapabilities {
  getPublicKey : string -> result PublicKey;
  verifySignature : PublicKey -> string -> string -> bool
}.

(** The calls [verify] makes on the key-resolution capability. *)
Inductive ResolverCall : Type :=
| CallGetPublicKey (did : string).

(** Per-issuer status, as listed in [data.details.issuance]. *)
Record IssuanceStatus : Type := mkIssuanceStatus {
  did : string;
  issued : bool;
  reason : option string
}.

Inductive Data : Type :=
| Issuance (issuedOnAll revokedOnAny : bool) (issuance : list IssuanceStatus)
| Caught (e : JsError).

Definition Fragment : Type := VerificationFragment Data.

Definition name : string := "OpenAttestationDidSignedDocumentStatus".
Definition type : VerificationFragmentType := DOCUMENT_STATUS.

(** The status codes the fragments of this verifier carry (0 and 1 in the
    verifier's tests). *)
Definition OpenAttestationDidSignedDocumentStatusCode : StatusCodeEnum :=
  {| enum_SKIPPED := 0;
     enum_UNEXPECTED_ERROR := 1;
     enum_name := fun c => if (c =? 0)%Z then "SKIPPED"
                           else if (c =? 1)%Z then "UNEXPECTED_ERROR" else "" |}.

Definition proofsMissing : string := "Document is not signed. Proofs are missing.".
Definition revocationMissing : string := "revocation block not found for an issuer".

(** Modelled from the spec: didSignedDocumentStatus.ts is not among the
    sources.  [skip] is the constant SKIPPED fragment with the verifier's
    fixed reason. *)
Definition skip : Fragment :=
  {| Core.name := name;
     Core.type := type;
     Core.status := SKIPPED;
     Core.data := None;
     Core.reason := Some
       {| code := enum_SKIPPED OpenAttestationDidSignedDocumentStatusCode;
          codeString := "SKIPPED";
          message := "Document was not signed by DID directly" |} |}.

(** Wait for every task of a fan-out: all of them have made their calls, and
    the join fails with the first failure. *)
Fixpoint joinAll {E A} (tasks : list (Eff.M E A)) : Eff.M E (list A) :=
  match tasks with
  | [] => Eff.ret []
  | (r, t) :: rest =>
      let (rs, ts) := joinAll rest in
      (match r, rs with
       | Throw e, _ => Throw e
       | Ok _, Throw e => Throw e
       | Ok a, Ok l => Ok (a :: l)
       end, t ++ ts)
  end.

Definition isRevoked (r : Revocation) : bool :=
  match revocationType r with NONE => false | Mechanism _ => true end.

Section Verifier.

Variable C : Capabilities.

(** Modelled from the spec: didSignedDocumentStatus.ts is not among the
    sources.  Steps 1 to 4 of the [verify] algorithm for one issuer:
    resolve the key; locate the proof entry of the resolved key; if found
    check the revocation descriptor (a missing one is the hard error);
    a failed resolution is that issuer's reason.  The result is the
    issuer's status and whether it counts as revoked.  [issued] is the
    answer of the signature capability, for which the specification names
    no reason. *)
Definition checkIssuer (merkleRoot : string) (proofs : list ProofEntry)
           (issuer : Issuer) : Eff.M ResolverCall (IssuanceStatus * bool) :=
  (Eff.emit (CallGetPublicKey (id issuer)) ;;;
   match getPublicKey C (id issuer) with
   | Throw e =>
       Eff.ret ({| did := id issuer; issued := false;
                   reason := Some (err_message e) |}, false)
   | Ok key =>
       match find (fun p => verificationMethod p =? keyId key) proofs with
       | None =>
           Eff.ret ({| did := id issuer; issued := false;
                       reason := Some ("Proof not found for " ++ keyId key)%string |},
                    false)
       | Some entry =>
           match revocation issuer with
           | None => Eff.throw (NewError revocationMissing)
           | Some r =>
               Eff.ret ({| did := id issuer;
                           issued := verifySignature C key (proofSignature entry)
                                                     merkleRoot;
                           reason := None |},
                        isRevoked r)
           end
       end
   end)%eff.

(** The resolved key of an issuer and its entry in the proof array, when
    the key resolves and the entry exists. *)
Definition locatedProof (proofs : list ProofEntry) (issuer : Issuer)
  : option (PublicKey * ProofEntry) :=
  match getPublicKey C (id issuer) with
  | Throw _ => None
  | Ok key =>
      option_map (pair key)
                 (find (fun p => verificationMethod p =? keyId key) proofs)
  end.

(** The hard error of step 3: the proof entry of the issuer is located
    and the issuer has no revocation block. *)
Definition revocationBlockMissing (proofs : list ProofEntry) (issuer : Issuer)
  : bool :=
  match locatedProof proofs issuer, revocation issuer with
  | Some _, None => true
  | _, _ => false
  end.

(** Modelled from the spec: step 5, the reduction across issuers. *)
Definition reduceIssuers (outcomes : list (IssuanceStatus * bool)) : Fragment :=
  let issuance := map fst outcomes in
  let issuedOnAll := forallb issued issuance in
  let revokedOnAny := existsb snd outcomes in
  {| Core.name := name;
     Core.type := type;
     Core.data := Some (Issuance issuedOnAll revokedOnAny issuance);
     Core.reason := None;
     Core.status := if issuedOnAll && negb revokedOnAny then VALID else INVALID |}.

(** Modelled from the spec: the body of [verify]: step 6 (a missing proof
    array is a hard error before any issuer is looked at), then the
    concurrent per-issuer checks and their reduction. *)
Definition verifyBody (document : WrappedDocument)
  : Eff.M ResolverCall Fragment :=
  match proof document with
  | None => Eff.throw (NewError proofsMissing)
  | Some proofs =>
      (let merkleRoot := ("0x" ++ merkleRoot (signature document))%string in
       outcomes <- joinAll (map (checkIssuer merkleRoot proofs)
                                (issuers document)) ;;
       Eff.ret (reduceIssuers outcomes))%eff
  end.

(** Modelled from the spec: section 4.1, any failure inside [verify]
    becomes an ERROR fragment with code UNEXPECTED_ERROR. *)
Definition unexpectedError (e : JsError) : Fragment :=
  {| Core.name := name;
     Core.type := type;
     Core.data := Some (Caught e);
     Core.reason := Some
       {| message := err_message e;
          code := enum_UNEXPECTED_ERROR OpenAttestationDidSignedDocumentStatusCode;
          codeString := "UNEXPECTED_ERROR" |};
     Core.status := ERROR |}.

(** Modelled from the spec: [verify] of the DID-signed verifier. *)
Definition verify (document : WrappedDocument) : Fragment * list ResolverCall :=
  Eff.tryCatch (verifyBody document) unexpectedError.

End Verifier.

End DidSignedDocumentStatus.

(** ** The document-store call wrapper *)

Module DocumentStore.

(** [{contractAddress, method, args}] *)
Record Request : Type := mkRequest {
  contractAddress : string;
  method : string;
  args : list string
}.

Inductive AbiType : Type := Bytes32.

(** The read interface of a document store: the enumerated methods and the
    declared type of their arguments. *)
Definition readInterface : list (string * list AbiType) :=
  [("isIssued", [Bytes32]); ("isRevoked", [Bytes32])].

(** The chain as [execute] sees it: which addresses hold code, and what a
    well-formed read call answers. *)
Record Chain : Type := mkChain {
  hasCode : string -> bool;
  call : string -> string -> list string -> result bool
}.

(** The zero address, at which no contract is ever deployed. *)
Definition zeroAddress : string := "0x0000000000000000000000000000000000000000".

Definition contractNotDeployed : string := "contract not deployed".
Definition invalidInputArgument : string := "invalid input argument".
Definition methodNotFound : string := "contract.functions[method] is not a function".

Definition isHexDigit (c : ascii) : bool :=
  let n := nat_of_ascii c in
  ((48 <=? n) && (n <=? 57) || (97 <=? n) && (n <=? 102)
   || (65 <=? n) && (n <=? 70))%nat.

Fixpoint allHex (s : string) : bool :=
  match s with
  | EmptyString => true
  | String c rest => isHexDigit c && allHex rest
  end.

(** A [bytes32] argument: [0x] and 64 hexadecimal digits. *)
Definition conformsTo (t : AbiType) (arg : string) : bool :=
  match t with
  | Bytes32 =>
      String.prefix "0x" arg && (String.length arg =? 66)%nat
      && allHex (String.substring 2 64 arg)
  end.

Fixpoint conformsAll (ts : list AbiType) (args : list string) : bool :=
  match ts, args with
  | [], [] => true
  | t :: ts', a :: args' => conformsTo t a && conformsAll ts' args'
  | _, _ => false
  end.

Definition lookupMethod (m : string) : option (list AbiType) :=
  option_map snd (find (fun entry => fst entry =? m) readInterface).

(** Modelled from the spec: documentStore.js is not among the sources, only
    its integration test is.  [execute] tells the three failure kinds apart
    in the order section 4.4 lists them: the code-exists check at the
    address, then the arguments against the declared types of the method,
    when the interface has the method, and the method-not-found failure
    when it has not. *)
Definition execute (chain : Chain) (request : Request) : result bool :=
  if negb (hasCode chain (contractAddress request))
  then Throw (NewError contractNotDeployed)
  else match lookupMethod (method request) with
       | Some inputs =>
           if conformsAll inputs (args request)
           then call chain (contractAddress request) (method request) (args request)
           else Throw (NewError invalidInputArgument)
       | None => Throw (NewError methodNotFound)
       end.

End DocumentStore.

(** ** The specification's reading of the token identifier *)

Module TokenIdentifier.

Fixpoint zeros (n : nat) : string :=
  match n with
  | O => EmptyString
  | S k => String "0" (zeros k)
  end.

(** Left-pad [s] with zeros up to [width] characters. *)
Definition padStart (width : nat) (s : string) : string :=
  zeros (width - String.length s) ++ s.

(** The merkle root "hex-encoded, zero-padded" to the 64 digits of a
    32-byte value, as the specification words it. *)
Definition hexZeroPadded32 (root : string) : string :=
  "0x" ++ padStart 64 root.

End TokenIdentifier.

(** ** Test doubles and sample documents *)

Module Fixtures.

Import Core.

Definition registryA : string := "0x48399Fb88bcD031C556F53e93F690EEC07963Af3".
Definition registryB : string := "0x2f60375e8144e16Adf1979936301D8341D58C36C".
Definition holder : string := "0xe712878f6e8d5d4f9e87e10da604f9cb564c9a89".
Definition sampleRoot : string :=
  "1a040999254caaf7a33cba67ec6a9b862da1dacf8a0d1e3bb76347060fc615d6".

(** The addresses of [l] that are not in [seen], each kept where it occurs
    first. *)
Fixpoint distinctFrom (seen l : list string) : list string :=
  match l with
  | [] => []
  | a :: rest =>
      if existsb (String.eqb a) seen then distinctFrom seen rest
      else a :: distinctFrom (a :: seen) rest
  end.

(** Modelled from the spec: [getIssuersTokenRegistry] of common/utils is not
    among the sources.  It collects the distinct token-registry addresses the
    issuers reference, in the order the issuers first reference them. *)
Definition issuerRegistries (document : WrappedDocument) : list string :=
  distinctFrom []
        (flat_map (fun issuer => match tokenRegistry issuer with
                                 | Some a => [a]
                                 | None => []
                                 end) (issuers document)).

(** A chain on which [registryA] has minted every token to [holder],
    [registryB] has minted none, and any other address fails the call. *)
Definition sampleImports : TokenRegistryStatus.Imports :=
  {| TokenRegistryStatus.Options := string;
     TokenRegistryStatus.Provider := string;
     TokenRegistryStatus.Contract := string;
     TokenRegistryStatus.getIssuersTokenRegistry :=
       fun document => Ok (issuerRegistries document);
     TokenRegistryStatus.getProvider := fun network => Ok network;
     TokenRegistryStatus.connect := fun tokenRegistry _ => Ok tokenRegistry;
     TokenRegistryStatus.ownerOf := fun contract _ =>
       if contract =? registryA then Ok holder
       else if contract =? registryB then Ok TokenRegistryStatus.AddressZero
       else Throw (NewError "call exception");
     TokenRegistryStatus.contractNotMinted := fun merkleRoot address =>
       {| code := 1; codeString := "DOCUMENT_NOT_MINTED";
          message := "Document " ++ merkleRoot
                       ++ " has not been issued under contract " ++ address |};
     TokenRegistryStatus.getErrorReason := fun e address _ =>
       {| code := 3; codeString := "ETHERS_UNHANDLED_ERROR";
          message := "Error with smart contract " ++ address ++ ": "
                       ++ err_message e |};
     TokenRegistryStatus.OpenAttestationEthereumTokenRegistryStatusCode :=
       {| enum_SKIPPED := 4; enum_UNEXPECTED_ERROR := 0;
          enum_name := fun c => if (c =? 4)%Z then "SKIPPED"
                                else "UNEXPECTED_ERROR" |} |}.

Definition issuerWith (registry : option string) (r : option Revocation) : Issuer :=
  {| id := "did:ethr:0xE712878f6E8d5d4F9e87E10DA604F9cB564C9a89";
     tokenRegistry := registry;
     revocation := r |}.

Definition documentWith (root : string) (registries : list (option string))
  : WrappedDocument :=
  {| version := V2;
     issuers := map (fun registry => issuerWith registry None) registries;
     signature := {| merkleRoot := root |};
     proof := None |}.

Definition documentMinted : WrappedDocument := documentWith sampleRoot [Some registryA].
Definition documentNotMinted : WrappedDocument := documentWith sampleRoot [Some registryB].
Definition documentTwoRegistries : WrappedDocument :=
  documentWith sampleRoot [Some registryA; Some registryB].
Definition documentNoRegistry : WrappedDocument := documentWith sampleRoot [None].
Definition documentShortRoot : WrappedDocument := documentWith "ab" [Some registryA].

(** The sample imports with a [getIssuersTokenRegistry] that throws. *)
Definition brokenImports : TokenRegistryStatus.Imports :=
  {| TokenRegistryStatus.Options := string;
     TokenRegistryStatus.Provider := string;
     TokenRegistryStatus.Contract := string;
     TokenRegistryStatus.getIssuersTokenRegistry :=
       fun _ => Throw (NewError "Cannot read property 'issuers' of undefined");
     TokenRegistryStatus.getProvider :=
       TokenRegistryStatus.getProvider sampleImports;
     TokenRegistryStatus.connect := TokenRegistryStatus.connect sampleImports;
     TokenRegistryStatus.ownerOf := TokenRegistryStatus.ownerOf sampleImports;
     TokenRegistryStatus.contractNotMinted :=
       TokenRegistryStatus.contractNotMinted sampleImports;
     TokenRegistryStatus.getErrorReason :=
       TokenRegistryStatus.getErrorReason sampleImports;
     TokenRegistryStatus.OpenAttestationEthereumTokenRegistryStatusCode :=
       TokenRegistryStatus.OpenAttestationEthereumTokenRegistryStatusCode
         sampleImports |}.

(** A registry the sample chain fails every call for, and a v3 document. *)
Definition registryC : string := "0x0000000000000000000000000000000000000001".
Definition documentCallFails : WrappedDocument := documentWith sampleRoot [Some registryC].
Definition documentNotMintedV3 : WrappedDocument :=
  {| version := V3;
     issuers := [issuerWith (Some registryB) None];
     signature := {| merkleRoot := sampleRoot |};
     proof := None |}.

(** *** DID-signed documents *)

Definition issuerDid : string := "did:ethr:0xE712878f6E8d5d4F9e87E10DA604F9cB564C9a89".
Definition otherDid : string := "did:ethr:0x1245e5B64D785b25057f7438F715f4aA5D965733".

Definition controllerKey : DidSignedDocumentStatus.PublicKey :=
  {| DidSignedDocumentStatus.keyId := issuerDid ++ "#controller";
     DidSignedDocumentStatus.keyType := "Secp256k1VerificationKey2018";
     DidSignedDocumentStatus.controller := issuerDid;
     DidSignedDocumentStatus.ethereumAddress := holder |}.

Definition sampleSignature : string := "0xe7b2e61e5d64b7e2ba1b0f1f1c6a1e1f".

(** A resolver that knows [issuerDid] only, and a signature check that
    accepts [sampleSignature] for that key. *)
Definition sampleCapabilities : DidSignedDocumentStatus.Capabilities :=
  {| DidSignedDocumentStatus.getPublicKey := fun did =>
       if did =? issuerDid then Ok controllerKey
       else Throw (NewError "Error from DID resolver");
     DidSignedDocumentStatus.verifySignature := fun key sig _ =>
       (DidSignedDocumentStatus.keyId key =? issuerDid ++ "#controller")
       && (sig =? sampleSignature) |}.

Definition didIssuer (did : string) (r : option Revocation) : Issuer :=
  {| id := did; tokenRegistry := None; revocation := r |}.

Definition controllerProof : ProofEntry :=
  {| verificationMethod := issuerDid ++ "#controller";
     proofSignature := sampleSignature |}.

Definition didDocument (issuers : list Issuer) (proofs : option (list ProofEntry))
  : WrappedDocument :=
  {| version := V2;
     issuers := issuers;
     signature := {| merkleRoot := sampleRoot |};
     proof := proofs |}.

Definition revocationNone : option Revocation :=
  Some {| revocationType := NONE |}.
Definition revocationStore : option Revocation :=
  Some {| revocationType := Mechanism "REVOCATION_STORE" |}.

Definition documentDidSigned : WrappedDocument :=
  didDocument [didIssuer issuerDid revocationNone] (Some [controllerProof]).
Definition documentDidCustomRevocation : WrappedDocument :=
  didDocument [didIssuer issuerDid revocationStore] (Some [controllerProof]).
Definition documentDidObfuscatedRevocation : WrappedDocument :=
  didDocument [didIssuer issuerDid None] (Some [controllerProof]).
Definition documentDidMissingProof : WrappedDocument :=
  didDocument [didIssuer issuerDid revocationNone] None.
Definition documentDidCustomRevocationMissingProof : WrappedDocument :=
  didDocument [didIssuer issuerDid revocationStore] None.
Definition documentDidTwoIssuers : WrappedDocument :=
  didDocument [didIssuer otherDid revocationNone; didIssuer issuerDid revocationNone]
              (Some [controllerProof]).
Definition documentDidTwoIssuersObfuscated : WrappedDocument :=
  didDocument [didIssuer otherDid revocationNone; didIssuer issuerDid None]
              (Some [controllerProof]).
Definition documentDidCustomRevocationObfuscated : WrappedDocument :=
  didDocument [didIssuer issuerDid revocationStore; didIssuer issuerDid None]
              (Some [controllerProof]).
Definition documentDidCustomRevocationNoEntry : WrappedDocument :=
  didDocument [didIssuer issuerDid revocationStore] (Some []).
Definition documentDidUnresolvableMissingProof : WrappedDocument :=
  didDocument [didIssuer otherDid revocationNone] None.

(** *** A chain for the document store *)

Definition deployedStore : string := "0x007d40224f6562461633ccfbaffd359ebb2fc9ba".
Definition zeroHash : string :=
  "0x0000000000000000000000000000000000000000000000000000000000000000".
Definition issuedHash : string :=
  "0x1a040999254caaf7a33cba67ec6a9b862da1dacf8a0d1e3bb76347060fc615d6".

Definition sampleChain : DocumentStore.Chain :=
  {| DocumentStore.hasCode := fun address => address =? deployedStore;
     DocumentStore.call := fun _ method args =>
       match args with
       | [hash] => Ok (if method =? "isIssued" then hash =? issuedHash
                       else negb (hash =? zeroHash))
       | _ => Throw (NewError "call exception")
       end |}.

End Fixtures.

(** * Properties *)

(** ** Sanity checks on the sample documents *)

Example verify_minted :
  Core.status (fst (TokenRegistryStatus.verify Fixtures.sampleImports
                      Fixtures.documentMinted "ropsten")) = Core.VALID.
Proof. reflexivity. Qed.

Example verify_not_minted :
  let fragment := fst (TokenRegistryStatus.verify Fixtures.sampleImports
                         Fixtures.documentNotMinted "ropsten") in
  Core.status fragment = Core.INVALID /\
  option_map Core.code (Core.reason fragment) = Some 1%Z.
Proof. split; reflexivity. Qed.

Example issuerRegistries_first_reference_order :
  Fixtures.issuerRegistries
    (Fixtures.documentWith Fixtures.sampleRoot
       [Some Fixtures.registryA; Some Fixtures.registryB; None;
        Some Fixtures.registryA])
  = [Fixtures.registryA; Fixtures.registryB].
Proof. reflexivity. Qed.

Example verify_did_signed :
  Core.status (fst (DidSignedDocumentStatus.verify Fixtures.sampleCapabilities
                      Fixtures.documentDidSigned)) = Core.VALID.
Proof. reflexivity. Qed.

Example verify_did_obfuscated_revocation :
  let fragment := fst (DidSignedDocumentStatus.verify Fixtures.sampleCapabilities
                         Fixtures.documentDidObfuscatedRevocation) in
  Core.status fragment = Core.ERROR /\
  option_map Core.message (Core.reason fragment)
  = Some "revocation block not found for an issuer".
Proof. split; reflexivity. Qed.

Example execute_is_issued :
  DocumentStore.execute Fixtures.sampleChain
    {| DocumentStore.contractAddress := Fixtures.deployedStore;
       DocumentStore.method := "isIssued";
       DocumentStore.args := [Fixtures.issuedHash] |} = Ok true
  /\ DocumentStore.execute Fixtures.sampleChain
    {| DocumentStore.contractAddress := Fixtures.deployedStore;
       DocumentStore.method := "isIssued";
       DocumentStore.args := ["0000"] |}
     = Throw (NewError "invalid input argument")
  /\ DocumentStore.execute Fixtures.sampleChain
    {| DocumentStore.contractAddress := Fixtures.deployedStore;
       DocumentStore.method := "foobar";
       DocumentStore.args := [Fixtures.zeroHash] |}
     = Throw (NewError "contract.functions[method] is not a function").
Proof. repeat split; reflexivity. Qed.

(** ** The token-registry verifier *)

Section TokenRegistryProperties.

Import Core TokenRegistryStatus.

Variable I : Imports.

(** The body of [verify], with the effect plumbing evaluated away. *)
Lemma verifyBody_cases (document : WrappedDocument) (options : Options I) :
  verifyBody I document options =
  match getIssuersTokenRegistry I document with
  | Throw e => (Throw e, [])
  | Ok tokenRegistries =>
      if (1 <? length tokenRegistries)%nat
      then (Throw (tooManyRegistries (length tokenRegistries)), [])
      else (Ok (reduceStatuses document
                  (fst (registryStatuses I options (tokenId document) tokenRegistries))),
            snd (registryStatuses I options (tokenId document) tokenRegistries))
  end.
Proof.
  unfold verifyBody, Eff.bind, Eff.lift, Eff.throw, Eff.ret.
  destruct (getIssuersTokenRegistry I document) as [tokenRegistries | e];
    [| reflexivity].
  destruct (1 <? length tokenRegistries)%nat; [reflexivity |].
  destruct (registryStatuses I options (tokenId document) tokenRegistries)
    as [statuses calls].
  simpl. now rewrite app_nil_r.
Qed.

Lemma two_distinct_members {A} (l : list A) (a b : A) :
  In a l -> In b l -> a <> b -> (1 < length l)%nat.
Proof.
  destruct l as [| x [| y l']]; simpl; intros Ha Hb Hab.
  - contradiction.
  - destruct Ha as [-> | []]; destruct Hb as [-> | []]; congruence.
  - lia.
Qed.

(** What [verify] returns once the registries are known to be at most one. *)
Lemma verify_reaches_reduction (document : WrappedDocument) (options : Options I)
      (tokenRegistries : list string) :
  getIssuersTokenRegistry I document = Ok tokenRegistries ->
  (length tokenRegistries <= 1)%nat ->
  verify I document options =
  (reduceStatuses document
     (fst (registryStatuses I options (tokenId document) tokenRegistries)),
   snd (registryStatuses I options (tokenId document) tokenRegistries)).
Proof.
  intros Hregs Hlen. unfold verify. rewrite verifyBody_cases, Hregs.
  destruct (Nat.ltb_spec 1 (length tokenRegistries)); [lia | reflexivity].
Qed.

End TokenRegistryProperties.

(** C2.  When the issuers of a document reference two distinct token-registry
    addresses, [verify] returns an ERROR fragment (the guard's error, with
    code UNEXPECTED_ERROR) and has made no call on the chain-read
    capability. *)
Theorem several_registries_error_without_chain_call :
  forall (I : TokenRegistryStatus.Imports) (document : WrappedDocument)
         (options : TokenRegistryStatus.Options I)
         (tokenRegistries : list string) (a b : string),
    TokenRegistryStatus.getIssuersTokenRegistry I document = Ok tokenRegistries ->
    In a tokenRegistries -> In b tokenRegistries -> a <> b ->
    TokenRegistryStatus.verify I document options =
      (TokenRegistryStatus.unexpectedError I
         (TokenRegistryStatus.tooManyRegistries (length tokenRegistries)), []) /\
    Core.status (fst (TokenRegistryStatus.verify I document options)) = Core.ERROR /\
    snd (TokenRegistryStatus.verify I document options) = [].
Proof.
  intros I document options tokenRegistries a b Hregs Ha Hb Hab.
  assert (Hlen : (1 < length tokenRegistries)%nat)
    by exact (two_distinct_members tokenRegistries a b Ha Hb Hab).
  assert (Hverify : TokenRegistryStatus.verify I document options =
                    (TokenRegistryStatus.unexpectedError I
                       (TokenRegistryStatus.tooManyRegistries (length tokenRegistries)),
                     [])).
  { unfold TokenRegistryStatus.verify. rewrite verifyBody_cases, Hregs.
    apply Nat.ltb_lt in Hlen. now rewrite Hlen. }
  rewrite Hverify. repeat split.
Qed.

Lemma several_registries_error_without_chain_call_witness :
  TokenRegistryStatus.verify Fixtures.sampleImports Fixtures.documentTwoRegistries "ropsten"
  = (TokenRegistryStatus.unexpectedError Fixtures.sampleImports
       (NewError "Only one token registry is allowed. Found 2"), []) /\
  Core.status (fst (TokenRegistryStatus.verify Fixtures.sampleImports
                      Fixtures.documentTwoRegistries "ropsten")) = Core.ERROR /\
  snd (TokenRegistryStatus.verify Fixtures.sampleImports
         Fixtures.documentTwoRegistries "ropsten") = [].
Proof.
  apply (several_registries_error_without_chain_call Fixtures.sampleImports
           Fixtures.documentTwoRegistries "ropsten"
           [Fixtures.registryA; Fixtures.registryB]
           Fixtures.registryA Fixtures.registryB).
  - reflexivity.
  - simpl; auto.
  - simpl; auto.
  - discriminate.
Defined.

(** C10.  When the issuers of a document reference no token registry,
    [verify] returns a VALID fragment with [mintedOnAll = true] and has made
    no call on the chain-read capability. *)
Theorem no_registry_valid_without_chain_call :
  forall (I : TokenRegistryStatus.Imports) (document : WrappedDocument)
         (options : TokenRegistryStatus.Options I),
    TokenRegistryStatus.getIssuersTokenRegistry I document = Ok [] ->
    Core.status (fst (TokenRegistryStatus.verify I document options)) = Core.VALID /\
    Core.data (fst (TokenRegistryStatus.verify I document options))
      = Some (TokenRegistryStatus.Minting true
                (if isWrappedV3Document document
                 then TokenRegistryStatus.First None
                 else TokenRegistryStatus.All [])) /\
    Core.reason (fst (TokenRegistryStatus.verify I document options)) = None /\
    snd (TokenRegistryStatus.verify I document options) = [].
Proof.
  intros I document options Hregs.
  rewrite (verify_reaches_reduction I document options [] Hregs) by (simpl; lia).
  repeat split.
Qed.

Lemma no_registry_valid_without_chain_call_witness :
  TokenRegistryStatus.getIssuersTokenRegistry Fixtures.sampleImports
    Fixtures.documentNoRegistry = Ok [] /\
  Core.status (fst (TokenRegistryStatus.verify Fixtures.sampleImports
                      Fixtures.documentNoRegistry "ropsten")) = Core.VALID /\
  Core.data (fst (TokenRegistryStatus.verify Fixtures.sampleImports
                    Fixtures.documentNoRegistry "ropsten"))
    = Some (TokenRegistryStatus.Minting true (TokenRegistryStatus.All [])) /\
  Core.reason (fst (TokenRegistryStatus.verify Fixtures.sampleImports
                      Fixtures.documentNoRegistry "ropsten")) = None /\
  snd (TokenRegistryStatus.verify Fixtures.sampleImports
         Fixtures.documentNoRegistry "ropsten") = [].
Proof.
  split; [reflexivity |].
  apply (no_registry_valid_without_chain_call Fixtures.sampleImports
           Fixtures.documentNoRegistry "ropsten").
  reflexivity.
Defined.

Section RegistryStatuses.

Import Core TokenRegistryStatus.

Variable I : Imports.

(** A status that is not minted always carries a reason. *)
Lemma mintedStatus_reason (merkleRoot tokenRegistry : string)
      (connected : result (Contract I)) :
  minted (fst (mintedStatus I merkleRoot tokenRegistry connected)) = false ->
  TokenRegistryStatus.reason (fst (mintedStatus I merkleRoot tokenRegistry connected))
  <> None.
Proof.
  unfold mintedStatus, Eff.tryCatch, Eff.bind, Eff.lift, Eff.emit, Eff.ret.
  destruct connected as [contract | e]; simpl; [| discriminate].
  destruct (ownerOf I contract merkleRoot) as [owner | e]; simpl; [| discriminate].
  destruct (owner =? AddressZero); simpl; [discriminate | intros H; discriminate H].
Qed.

(** The only call the resumed callback makes is [ownerOf] on its own
    registry with the token identifier it was given. *)
Lemma mintedStatus_calls (merkleRoot tokenRegistry : string)
      (connected : result (Contract I)) (c : ChainCall) :
  In c (snd (mintedStatus I merkleRoot tokenRegistry connected)) ->
  c = CallOwnerOf tokenRegistry merkleRoot.
Proof.
  unfold mintedStatus, Eff.tryCatch, Eff.bind, Eff.lift, Eff.emit, Eff.ret.
  destruct connected as [contract | e]; simpl; [| contradiction].
  destruct (ownerOf I contract merkleRoot) as [owner | e]; simpl;
    intros [H | []]; now symmetry.
Qed.

(** Connecting never reads the chain state of a token. *)
Lemma connectRegistry_calls (options : Options I) (tokenRegistry : string)
      (c : ChainCall) :
  In c (snd (connectRegistry I options tokenRegistry)) ->
  c = CallGetProvider \/ c = CallConnect tokenRegistry.
Proof.
  unfold connectRegistry, Eff.bind, Eff.lift, Eff.emit.
  destruct (getProvider I options) as [provider | e]; simpl.
  - destruct (connect I tokenRegistry provider); simpl; intuition.
  - intuition.
Qed.

Lemma registryStatuses_ownerOf (options : Options I) (merkleRoot : string)
      (tokenRegistries : list string) (tokenRegistry identifier : string) :
  In (CallOwnerOf tokenRegistry identifier)
     (snd (registryStatuses I options merkleRoot tokenRegistries)) ->
  identifier = merkleRoot /\ In tokenRegistry tokenRegistries.
Proof.
  unfold registryStatuses. simpl. intros H.
  apply in_app_or in H. destruct H as [H | H]; apply in_concat in H;
    destruct H as [calls [Hcalls Hin]]; apply in_map_iff in Hcalls;
    destruct Hcalls as [x [<- Hx]].
  - apply in_map_iff in Hx. destruct Hx as [r [<- _]].
    apply connectRegistry_calls in Hin. destruct Hin; discriminate.
  - apply in_map_iff in Hx. destruct Hx as [[r started] [<- Hp]].
    apply mintedStatus_calls in Hin. simpl in Hin. injection Hin as -> ->.
    split; [reflexivity |]. now apply in_combine_l in Hp.
Qed.

Lemma registryStatuses_reason (options : Options I) (merkleRoot : string)
      (tokenRegistries : list string) (status : Status) :
  In status (fst (registryStatuses I options merkleRoot tokenRegistries)) ->
  minted status = false -> TokenRegistryStatus.reason status <> None.
Proof.
  unfold registryStatuses. simpl. intros H.
  apply in_map_iff in H. destruct H as [x [<- Hx]].
  apply in_map_iff in Hx. destruct Hx as [[r started] [<- _]].
  apply mintedStatus_reason.
Qed.

(** *** The reduction *)

Lemma find_not_minted_none (statuses : list Status) :
  Forall (fun s => minted s = true) statuses ->
  find (fun status => negb (minted status)) statuses = None.
Proof.
  induction 1 as [| s l Hs _ IH]; simpl; [reflexivity |].
  now rewrite Hs.
Qed.

Lemma find_first_not_minted (before after : list Status) (s : Status) :
  Forall (fun s => minted s = true) before ->
  minted s = false ->
  find (fun status => negb (minted status)) (before ++ s :: after) = Some s.
Proof.
  intros Hbefore Hs. induction Hbefore as [| x l Hx _ IH]; simpl.
  - now rewrite Hs.
  - now rewrite Hx.
Qed.

Lemma reduceStatuses_all_minted (document : WrappedDocument) (statuses : list Status) :
  Forall (fun s => minted s = true) statuses ->
  Core.status (reduceStatuses document statuses) = VALID /\
  Core.reason (reduceStatuses document statuses) = None /\
  Core.data (reduceStatuses document statuses)
    = Some (Minting true (if isWrappedV3Document document
                          then First (nth_error statuses 0) else All statuses)).
Proof.
  intros H. unfold reduceStatuses. rewrite (find_not_minted_none _ H).
  repeat split.
Qed.

Lemma reduceStatuses_first_not_minted (document : WrappedDocument)
      (before after : list Status) (s : Status) :
  Forall (fun s => minted s = true) before ->
  minted s = false ->
  Core.status (reduceStatuses document (before ++ s :: after)) = INVALID /\
  Core.reason (reduceStatuses document (before ++ s :: after))
    = TokenRegistryStatus.reason s /\
  Core.data (reduceStatuses document (before ++ s :: after))
    = Some (Minting false
              (if isWrappedV3Document document
               then First (nth_error (before ++ s :: after) 0)
               else All (before ++ s :: after))).
Proof.
  intros Hbefore Hs. unfold reduceStatuses.
  rewrite (find_first_not_minted before after s Hbefore Hs).
  repeat split.
Qed.

(** A fragment of the reduction that is not VALID has the reason of one of
    the statuses that is not minted. *)
Lemma reduceStatuses_not_valid (document : WrappedDocument) (statuses : list Status) :
  Core.status (reduceStatuses document statuses) <> VALID ->
  exists s, In s statuses /\ minted s = false /\
            Core.reason (reduceStatuses document statuses)
              = TokenRegistryStatus.reason s.
Proof.
  unfold reduceStatuses.
  destruct (find (fun status => negb (minted status)) statuses) as [s |] eqn:Hfind;
    simpl; intros H; [| congruence].
  apply find_some in Hfind. destruct Hfind as [Hin Hs].
  exists s. repeat split; [assumption |].
  now apply negb_true_iff in Hs.
Qed.

End RegistryStatuses.

(** C3.  The reduction over the registry statuses, lines 73-88, for a list
    of statuses of any length: if every status is minted the fragment is
    VALID with [mintedOnAll = true] and no reason; if some status is not
    minted the fragment is INVALID with [mintedOnAll = false] and carries the
    reason of the first status, in registry order, that is not minted,
    whatever the statuses after it are.  A document that reaches the
    reduction step of [verify] gets this reduction of the statuses of its
    registries. *)
Theorem reduction_over_registry_statuses :
  forall (I : TokenRegistryStatus.Imports) (document : WrappedDocument)
         (options : TokenRegistryStatus.Options I),
    (forall tokenRegistries : list string,
        TokenRegistryStatus.getIssuersTokenRegistry I document = Ok tokenRegistries ->
        (length tokenRegistries <= 1)%nat ->
        fst (TokenRegistryStatus.verify I document options)
        = TokenRegistryStatus.reduceStatuses document
            (fst (TokenRegistryStatus.registryStatuses I options
                    (TokenRegistryStatus.tokenId document) tokenRegistries))) /\
    (forall statuses : list TokenRegistryStatus.Status,
        Forall (fun s => TokenRegistryStatus.minted s = true) statuses ->
        let fragment := TokenRegistryStatus.reduceStatuses document statuses in
        Core.status fragment = Core.VALID /\
        Core.reason fragment = None /\
        Core.data fragment
        = Some (TokenRegistryStatus.Minting true
                  (if isWrappedV3Document document
                   then TokenRegistryStatus.First (nth_error statuses 0)
                   else TokenRegistryStatus.All statuses))) /\
    (forall (before after : list TokenRegistryStatus.Status)
            (s : TokenRegistryStatus.Status),
        Forall (fun s => TokenRegistryStatus.minted s = true) before ->
        TokenRegistryStatus.minted s = false ->
        let statuses := before ++ s :: after in
        let fragment := TokenRegistryStatus.reduceStatuses document statuses in
        Core.status fragment = Core.INVALID /\
        Core.reason fragment = TokenRegistryStatus.reason s /\
        Core.data fragment
        = Some (TokenRegistryStatus.Minting false
                  (if isWrappedV3Document document
                   then TokenRegistryStatus.First (nth_error statuses 0)
                   else TokenRegistryStatus.All statuses))).
Proof.
  intros I document options. split; [| split].
  - intros tokenRegistries Hregs Hlen.
    now rewrite (verify_reaches_reduction I document options tokenRegistries Hregs Hlen).
  - intros statuses Hall. exact (reduceStatuses_all_minted document statuses Hall).
  - intros before after s Hbefore Hs.
    exact (reduceStatuses_first_not_minted document before after s Hbefore Hs).
Qed.

Lemma reduction_over_registry_statuses_witness :
  let merkleRoot := TokenRegistryStatus.tokenId Fixtures.documentMinted in
  let statuses :=
    fst (TokenRegistryStatus.registryStatuses Fixtures.sampleImports "ropsten" merkleRoot
           [Fixtures.registryA; Fixtures.registryB; Fixtures.registryC]) in
  let fragment := TokenRegistryStatus.reduceStatuses Fixtures.documentMinted statuses in
  map TokenRegistryStatus.minted statuses = [true; false; false] /\
  Core.status fragment = Core.INVALID /\
  Core.reason fragment
  = Some (TokenRegistryStatus.contractNotMinted Fixtures.sampleImports merkleRoot
            Fixtures.registryB) /\
  Core.data fragment = Some (TokenRegistryStatus.Minting false
                               (TokenRegistryStatus.All statuses)) /\
  fst (TokenRegistryStatus.verify Fixtures.sampleImports
         Fixtures.documentNotMinted "ropsten")
  = TokenRegistryStatus.reduceStatuses Fixtures.documentNotMinted
      (fst (TokenRegistryStatus.registryStatuses Fixtures.sampleImports "ropsten"
              merkleRoot [Fixtures.registryB])).
Proof.
  intros merkleRoot statuses fragment.
  destruct (reduction_over_registry_statuses Fixtures.sampleImports
              Fixtures.documentMinted "ropsten") as (_ & _ & Hfirst).
  destruct (reduction_over_registry_statuses Fixtures.sampleImports
              Fixtures.documentNotMinted "ropsten") as (Hverify & _ & _).
  split; [reflexivity |].
  destruct (Hfirst
              [{| TokenRegistryStatus.minted := true;
                  TokenRegistryStatus.address := Fixtures.registryA;
                  TokenRegistryStatus.reason := None |}]
              [{| TokenRegistryStatus.minted := false;
                  TokenRegistryStatus.address := Fixtures.registryC;
                  TokenRegistryStatus.reason :=
                    Some (TokenRegistryStatus.getErrorReason Fixtures.sampleImports
                            (NewError "call exception") Fixtures.registryC
                            merkleRoot) |}]
              {| TokenRegistryStatus.minted := false;
                 TokenRegistryStatus.address := Fixtures.registryB;
                 TokenRegistryStatus.reason :=
                   Some (TokenRegistryStatus.contractNotMinted Fixtures.sampleImports
                           merkleRoot Fixtures.registryB) |})
    as (Hstatus & Hreason & Hdata).
  - repeat constructor.
  - reflexivity.
  - split; [exact Hstatus |]. split; [exact Hreason |]. split; [exact Hdata |].
    exact (Hverify [Fixtures.registryB] eq_refl (le_n 1)).
Defined.

(** ** The token identifier *)

Lemma length_append (a b : string) :
  String.length (a ++ b) = (String.length a + String.length b)%nat.
Proof. induction a as [| c a IH]; simpl; [reflexivity | now rewrite IH]. Qed.

Lemma length_zeros (n : nat) : String.length (TokenIdentifier.zeros n) = n.
Proof. induction n as [| n IH]; simpl; [reflexivity | now rewrite IH]. Qed.

Lemma hexZeroPadded32_length (root : string) :
  String.length (TokenIdentifier.hexZeroPadded32 root)
  = (2 + Nat.max 64 (String.length root))%nat.
Proof.
  unfold TokenIdentifier.hexZeroPadded32, TokenIdentifier.padStart.
  rewrite !length_append, length_zeros.
  change (String.length "0x") with 2%nat. lia.
Qed.

(** C4, as the code has it.  Every [ownerOf] call [verify] makes is for the
    token identifier ["0x"] followed by the merkle root exactly as the
    document stores it.  Nothing pads it: it is the zero-padded 32-byte
    encoding when the stored root has 64 digits, and it is not when the
    stored root is shorter. *)
Theorem token_identifier_is_prefixed_merkle_root :
  forall (I : TokenRegistryStatus.Imports) (document : WrappedDocument)
         (options : TokenRegistryStatus.Options I)
         (tokenRegistry identifier : string),
    In (TokenRegistryStatus.CallOwnerOf tokenRegistry identifier)
       (snd (TokenRegistryStatus.verify I document options)) ->
    identifier = TokenRegistryStatus.tokenId document /\
    identifier = ("0x" ++ merkleRoot (signature document))%string /\
    (String.length (merkleRoot (signature document)) = 64%nat ->
     identifier = TokenIdentifier.hexZeroPadded32 (merkleRoot (signature document)) /\
     String.length identifier = 66%nat) /\
    ((String.length (merkleRoot (signature document)) < 64)%nat ->
     identifier <> TokenIdentifier.hexZeroPadded32 (merkleRoot (signature document))).
Proof.
  intros I document options tokenRegistry identifier Hin.
  assert (Hid : identifier = TokenRegistryStatus.tokenId document).
  { unfold TokenRegistryStatus.verify in Hin. rewrite verifyBody_cases in Hin.
    destruct (TokenRegistryStatus.getIssuersTokenRegistry I document)
      as [tokenRegistries | e]; simpl in Hin; [| contradiction].
    destruct (1 <? length tokenRegistries)%nat; simpl in Hin; [contradiction |].
    now apply registryStatuses_ownerOf in Hin. }
  subst identifier. unfold TokenRegistryStatus.tokenId.
  split; [reflexivity |]. split; [reflexivity |]. split.
  - intros Hfull. split.
    + unfold TokenIdentifier.hexZeroPadded32, TokenIdentifier.padStart.
      rewrite Hfull. reflexivity.
    + rewrite length_append, Hfull. reflexivity.
  - intros Hshort Heq. apply (f_equal String.length) in Heq.
    rewrite hexZeroPadded32_length, length_append in Heq.
    change (String.length "0x") with 2%nat in Heq. lia.
Qed.

Lemma token_identifier_is_prefixed_merkle_root_witness :
  In (TokenRegistryStatus.CallOwnerOf Fixtures.registryA
        ("0x" ++ Fixtures.sampleRoot))
     (snd (TokenRegistryStatus.verify Fixtures.sampleImports
             Fixtures.documentMinted "ropsten")) /\
  ("0x" ++ Fixtures.sampleRoot)%string
  = TokenIdentifier.hexZeroPadded32 (merkleRoot (signature Fixtures.documentMinted)).
Proof.
  assert (Hin : In (TokenRegistryStatus.CallOwnerOf Fixtures.registryA
                      ("0x" ++ Fixtures.sampleRoot))
                   (snd (TokenRegistryStatus.verify Fixtures.sampleImports
                           Fixtures.documentMinted "ropsten"))).
  { simpl. right. right. left. reflexivity. }
  split; [exact Hin |].
  destruct (token_identifier_is_prefixed_merkle_root Fixtures.sampleImports
              Fixtures.documentMinted "ropsten" Fixtures.registryA
              ("0x" ++ Fixtures.sampleRoot) Hin) as [_ [_ [Hfull _]]].
  apply Hfull. reflexivity.
Defined.

(** C4, as the specification words it, fails: for a document whose stored
    merkle root is ["ab"], [verify] asks for the owner of token ["0xab"],
    which is not the root zero-padded to 32 bytes. *)
Lemma token_identifier_not_zero_padded :
  ~ (forall tokenRegistry identifier : string,
        In (TokenRegistryStatus.CallOwnerOf tokenRegistry identifier)
           (snd (TokenRegistryStatus.verify Fixtures.sampleImports
                   Fixtures.documentShortRoot "ropsten")) ->
        identifier = TokenIdentifier.hexZeroPadded32
                       (merkleRoot (signature Fixtures.documentShortRoot))).
Proof.
  intros H. specialize (H Fixtures.registryA "0xab").
  assert (Hin : In (TokenRegistryStatus.CallOwnerOf Fixtures.registryA "0xab")
                   (snd (TokenRegistryStatus.verify Fixtures.sampleImports
                           Fixtures.documentShortRoot "ropsten"))).
  { simpl. right. right. left. reflexivity. }
  specialize (H Hin). discriminate H.
Qed.

(** ** The DID-signed verifier *)

Section JoinAll.

Import DidSignedDocumentStatus.

Context {E A : Type}.

(** Every task of a fan-out makes its calls, whatever the others do. *)
Lemma joinAll_calls (tasks : list (Eff.M E A)) :
  snd (joinAll tasks) = concat (map snd tasks).
Proof.
  induction tasks as [| [r t] rest IH]; simpl; [reflexivity |].
  destruct (joinAll rest) as [rs ts]. simpl in *. now rewrite IH.
Qed.

(** When no task fails the join returns all the values, in task order. *)
Lemma joinAll_values (tasks : list (Eff.M E A)) (values : list A) :
  Forall2 (fun task a => fst task = Ok a) tasks values ->
  fst (joinAll tasks) = Ok values.
Proof.
  induction 1 as [| [r t] a rest values' Hr _ IH]; simpl; [reflexivity |].
  destruct (joinAll rest) as [rs ts]. simpl in *. now rewrite Hr, IH.
Qed.

(** When some task fails the join fails. *)
Lemma joinAll_failure (tasks : list (Eff.M E A)) (task : Eff.M E A) (e : JsError) :
  In task tasks -> fst task = Throw e -> exists e', fst (joinAll tasks) = Throw e'.
Proof.
  induction tasks as [| [r t] rest IH]; simpl; [contradiction |].
  intros [<- | Hin] He; destruct (joinAll rest) as [rs ts]; simpl in *.
  - rewrite He. eauto.
  - destruct (IH Hin He) as [e' ->]. destruct r; eauto.
Qed.

End JoinAll.

Section DidSignedProperties.

Import Core DidSignedDocumentStatus.

Variable C : Capabilities.

Lemma checkIssuer_calls (merkleRoot : string) (proofs : list ProofEntry)
      (issuer : Issuer) :
  snd (checkIssuer C merkleRoot proofs issuer) = [CallGetPublicKey (id issuer)].
Proof.
  unfold checkIssuer, Eff.bind, Eff.emit, Eff.ret, Eff.throw. simpl.
  destruct (getPublicKey C (id issuer)) as [key | e]; [| reflexivity].
  destruct (find _ proofs) as [entry |]; [| reflexivity].
  destruct (revocation issuer); reflexivity.
Qed.

(** The status of an issuer is a function of that issuer alone; without
    the hard error there always is one, and it names the issuer. *)
Lemma checkIssuer_outcome (merkleRoot : string) (proofs : list ProofEntry)
      (issuer : Issuer) :
  revocationBlockMissing C proofs issuer = false ->
  exists outcome,
    fst (checkIssuer C merkleRoot proofs issuer) = Ok outcome /\
    did (fst outcome) = id issuer.
Proof.
  unfold revocationBlockMissing, locatedProof, checkIssuer,
    Eff.bind, Eff.emit, Eff.ret, Eff.throw. simpl.
  destruct (getPublicKey C (id issuer)) as [key | e]; simpl; [| eauto].
  destruct (find _ proofs) as [entry |]; simpl; [| eauto].
  destruct (revocation issuer); simpl; [eauto | discriminate].
Qed.

Lemma checkIssuer_resolver_failure (merkleRoot : string) (proofs : list ProofEntry)
      (issuer : Issuer) (e : JsError) :
  getPublicKey C (id issuer) = Throw e ->
  fst (checkIssuer C merkleRoot proofs issuer)
  = Ok ({| did := id issuer; issued := false; reason := Some (err_message e) |},
        false).
Proof.
  intros He. unfold checkIssuer, Eff.bind, Eff.emit, Eff.ret. simpl.
  now rewrite He.
Qed.

Lemma checkIssuer_revoked (merkleRoot : string) (proofs : list ProofEntry)
      (issuer : Issuer) (located : PublicKey * ProofEntry) (r : Revocation) :
  locatedProof C proofs issuer = Some located ->
  revocation issuer = Some r ->
  revocationType r <> NONE ->
  exists status, fst (checkIssuer C merkleRoot proofs issuer) = Ok (status, true).
Proof.
  unfold locatedProof, checkIssuer, Eff.bind, Eff.emit, Eff.ret. simpl.
  destruct (getPublicKey C (id issuer)) as [key | e]; [| discriminate].
  destruct (find _ proofs) as [entry |]; simpl; [| discriminate].
  intros _ -> Htype. simpl. unfold isRevoked.
  destruct (revocationType r); [congruence | eauto].
Qed.

Lemma outcomes_exist (merkleRoot : string) (proofs : list ProofEntry)
      (issuers : list Issuer) :
  forallb (fun issuer => negb (revocationBlockMissing C proofs issuer)) issuers = true ->
  exists outcomes,
    Forall2 (fun issuer outcome =>
               fst (checkIssuer C merkleRoot proofs issuer) = Ok outcome /\
               did (fst outcome) = id issuer)
            issuers outcomes.
Proof.
  induction issuers as [| issuer rest IH]; simpl; intros H.
  - exists []. constructor.
  - apply andb_true_iff in H. destruct H as [Hissuer Hrest].
    apply negb_true_iff in Hissuer.
    destruct (checkIssuer_outcome merkleRoot proofs issuer Hissuer) as [o Ho].
    destruct (IH Hrest) as [os Hos].
    exists (o :: os). now constructor.
Qed.

(** Without a hard error [verify] returns the reduction over one outcome
    per issuer, after one resolver call per issuer. *)
Lemma verify_reduces (document : WrappedDocument) (proofs : list ProofEntry) :
  proof document = Some proofs ->
  forallb (fun issuer => negb (revocationBlockMissing C proofs issuer))
          (issuers document) = true ->
  exists outcomes,
    Forall2 (fun issuer outcome =>
               fst (checkIssuer C ("0x" ++ merkleRoot (signature document))%string
                                proofs issuer) = Ok outcome /\
               did (fst outcome) = id issuer)
            (issuers document) outcomes /\
    verify C document =
      (reduceIssuers outcomes,
       map (fun issuer => CallGetPublicKey (id issuer)) (issuers document)).
Proof.
  intros Hproof Hsound.
  destruct (outcomes_exist ("0x" ++ merkleRoot (signature document))%string
              proofs (issuers document) Hsound) as [outcomes Houtcomes].
  exists outcomes. split; [assumption |].
  unfold verify, verifyBody. rewrite Hproof.
  set (tasks := map (checkIssuer C ("0x" ++ merkleRoot (signature document))%string
                       proofs) (issuers document)).
  assert (Hvalues : fst (joinAll tasks) = Ok outcomes).
  { apply joinAll_values. subst tasks.
    clear Hsound Hproof. induction Houtcomes as [| i o rest os [Hio _] _ IH]; simpl.
    - constructor.
    - constructor; assumption. }
  assert (Hcalls : snd (joinAll tasks)
                   = map (fun issuer => CallGetPublicKey (id issuer)) (issuers document)).
  { rewrite joinAll_calls. subst tasks. rewrite map_map.
    clear. induction (issuers document) as [| i rest IH]; [reflexivity |].
    cbn [map concat]. rewrite checkIssuer_calls, IH. reflexivity. }
  unfold Eff.bind, Eff.ret, Eff.tryCatch.
  destruct (joinAll tasks) as [r t]. simpl in Hvalues, Hcalls. subst r t.
  now rewrite app_nil_r.
Qed.

End DidSignedProperties.

Section Forall2Facts.

Context {A B : Type} (R : A -> B -> Prop).

Lemma Forall2_nth_error_l (l : list A) (l' : list B) (n : nat) (x : A) :
  Forall2 R l l' -> nth_error l n = Some x ->
  exists y, nth_error l' n = Some y /\ R x y.
Proof.
  intros H. revert n. induction H as [| a b l l' Hab _ IH]; intros [| n]; simpl;
    try discriminate.
  - intros [= <-]. eauto.
  - apply IH.
Qed.

Lemma Forall2_In_l (l : list A) (l' : list B) (x : A) :
  Forall2 R l l' -> In x l -> exists y, In y l' /\ R x y.
Proof.
  induction 1 as [| a b l l' Hab _ IH]; simpl; [contradiction |].
  intros [<- | Hin]; [eauto |].
  destruct (IH Hin) as [y [Hy Hxy]]. eauto.
Qed.

End Forall2Facts.

(** C7.  For a document without a proof array, [verify] of the DID-signed
    verifier returns the whole-fragment ERROR with code UNEXPECTED_ERROR and
    the message about the missing proofs, and no issuer has been looked at:
    the key-resolution capability has not been called. *)
Theorem missing_proof_array_is_hard_error :
  forall (C : DidSignedDocumentStatus.Capabilities) (document : WrappedDocument),
    proof document = None ->
    let fragment := fst (DidSignedDocumentStatus.verify C document) in
    Core.status fragment = Core.ERROR /\
    Core.data fragment
      = Some (DidSignedDocumentStatus.Caught
                (NewError DidSignedDocumentStatus.proofsMissing)) /\
    Core.reason fragment
      = Some {| Core.code := Core.enum_UNEXPECTED_ERROR
                  DidSignedDocumentStatus.OpenAttestationDidSignedDocumentStatusCode;
                Core.codeString := "UNEXPECTED_ERROR";
                Core.message := DidSignedDocumentStatus.proofsMissing |} /\
    snd (DidSignedDocumentStatus.verify C document) = [].
Proof.
  intros C document Hproof.
  unfold DidSignedDocumentStatus.verify, DidSignedDocumentStatus.verifyBody.
  rewrite Hproof. repeat split.
Qed.

Lemma missing_proof_array_is_hard_error_witness :
  proof Fixtures.documentDidMissingProof = None /\
  Core.status (fst (DidSignedDocumentStatus.verify Fixtures.sampleCapabilities
                      Fixtures.documentDidMissingProof)) = Core.ERROR /\
  option_map Core.message
    (Core.reason (fst (DidSignedDocumentStatus.verify Fixtures.sampleCapabilities
                         Fixtures.documentDidMissingProof)))
  = Some "Document is not signed. Proofs are missing." /\
  snd (DidSignedDocumentStatus.verify Fixtures.sampleCapabilities
         Fixtures.documentDidMissingProof) = [].
Proof.
  split; [reflexivity |].
  pose proof (missing_proof_array_is_hard_error Fixtures.sampleCapabilities
                Fixtures.documentDidMissingProof eq_refl) as H.
  cbv zeta in H. destruct H as (Hs & _ & Hr & Hc).
  split; [exact Hs |]. split; [| exact Hc].
  rewrite Hr. reflexivity.
Defined.

(** C6, as the code has it.  For a document that has a proof array and in
    which no issuer raises the missing-revocation-block hard error: when an
    issuer whose proof entry is located declares a revocation type other than
    NONE, the fragment has [revokedOnAny = true] and status INVALID. *)
Theorem other_revocation_type_is_revoked :
  forall (C : DidSignedDocumentStatus.Capabilities) (document : WrappedDocument)
         (proofs : list ProofEntry) (issuer : Issuer)
         (located : DidSignedDocumentStatus.PublicKey * ProofEntry) (r : Revocation),
    proof document = Some proofs ->
    forallb (fun i => negb (DidSignedDocumentStatus.revocationBlockMissing C proofs i))
            (issuers document) = true ->
    In issuer (issuers document) ->
    DidSignedDocumentStatus.locatedProof C proofs issuer = Some located ->
    revocation issuer = Some r ->
    revocationType r <> NONE ->
    let fragment := fst (DidSignedDocumentStatus.verify C document) in
    Core.status fragment = Core.INVALID /\
    exists issuedOnAll issuance,
      Core.data fragment
        = Some (DidSignedDocumentStatus.Issuance issuedOnAll true issuance).
Proof.
  intros C document proofs issuer located r Hproof Hsound Hin Hlocated Hr Htype.
  destruct (verify_reduces C document proofs Hproof Hsound)
    as [outcomes [Houtcomes Hverify]].
  cbv zeta. rewrite Hverify. cbn [fst].
  destruct (Forall2_In_l _ _ _ issuer Houtcomes Hin) as [outcome [Ho [Hcheck _]]].
  destruct (checkIssuer_revoked C ("0x" ++ merkleRoot (signature document))%string
              proofs issuer located r Hlocated Hr Htype)
    as [status Hstatus].
  rewrite Hstatus in Hcheck. injection Hcheck as <-.
  assert (Hany : existsb snd outcomes = true).
  { apply existsb_exists. exists (status, true). split; [assumption | reflexivity]. }
  unfold DidSignedDocumentStatus.reduceIssuers. cbn [Core.status Core.data].
  rewrite Hany, andb_false_r. split; [reflexivity | eauto].
Qed.

Lemma other_revocation_type_is_revoked_witness :
  let fragment := fst (DidSignedDocumentStatus.verify Fixtures.sampleCapabilities
                         Fixtures.documentDidCustomRevocation) in
  Core.status fragment = Core.INVALID /\
  exists issuedOnAll issuance,
    Core.data fragment
      = Some (DidSignedDocumentStatus.Issuance issuedOnAll true issuance).
Proof.
  apply (other_revocation_type_is_revoked Fixtures.sampleCapabilities
           Fixtures.documentDidCustomRevocation [Fixtures.controllerProof]
           (Fixtures.didIssuer Fixtures.issuerDid Fixtures.revocationStore)
           (Fixtures.controllerKey, Fixtures.controllerProof)
           {| revocationType := Mechanism "REVOCATION_STORE" |}).
  - reflexivity.
  - reflexivity.
  - simpl. left. reflexivity.
  - reflexivity.
  - reflexivity.
  - discriminate.
Defined.

(** C6, as the specification words it, fails.  In each of three documents an
    issuer declares the revocation type REVOCATION_STORE.  The one without a
    proof array gets an ERROR fragment; so does the one in which another
    issuer has a located proof and no revocation block; and the one whose
    proof array has no entry for the issuer's key gets an INVALID fragment
    with [revokedOnAny = false]. *)
Lemma other_revocation_type_not_always_revoked :
  (In (Fixtures.didIssuer Fixtures.issuerDid Fixtures.revocationStore)
      (issuers Fixtures.documentDidCustomRevocationMissingProof) /\
   Core.status (fst (DidSignedDocumentStatus.verify Fixtures.sampleCapabilities
                       Fixtures.documentDidCustomRevocationMissingProof))
   = Core.ERROR) /\
  (In (Fixtures.didIssuer Fixtures.issuerDid Fixtures.revocationStore)
      (issuers Fixtures.documentDidCustomRevocationObfuscated) /\
   Core.status (fst (DidSignedDocumentStatus.verify Fixtures.sampleCapabilities
                       Fixtures.documentDidCustomRevocationObfuscated))
   = Core.ERROR) /\
  (In (Fixtures.didIssuer Fixtures.issuerDid Fixtures.revocationStore)
      (issuers Fixtures.documentDidCustomRevocationNoEntry) /\
   exists issuance,
     Core.data (fst (DidSignedDocumentStatus.verify Fixtures.sampleCapabilities
                       Fixtures.documentDidCustomRevocationNoEntry))
     = Some (DidSignedDocumentStatus.Issuance false false issuance)).
Proof.
  repeat split; try (simpl; left; reflexivity).
  eexists. reflexivity.
Qed.

(** C8, as the code has it.  For a document that has a proof array and in
    which no issuer raises the missing-revocation-block hard error: when the
    key-resolution capability rejects for an issuer, the status listed for
    that issuer is [issued = false] with the resolver's message as reason,
    every issuer has been resolved and has its own status in
    [details.issuance], and the fragment is INVALID. *)
Theorem resolver_failure_is_per_issuer :
  forall (C : DidSignedDocumentStatus.Capabilities) (document : WrappedDocument)
         (proofs : list ProofEntry) (n : nat) (issuer : Issuer) (e : JsError),
    proof document = Some proofs ->
    forallb (fun i => negb (DidSignedDocumentStatus.revocationBlockMissing C proofs i))
            (issuers document) = true ->
    nth_error (issuers document) n = Some issuer ->
    DidSignedDocumentStatus.getPublicKey C (id issuer) = Throw e ->
    exists revokedOnAny issuance,
      Core.data (fst (DidSignedDocumentStatus.verify C document))
        = Some (DidSignedDocumentStatus.Issuance false revokedOnAny issuance) /\
      nth_error issuance n
        = Some {| DidSignedDocumentStatus.did := id issuer;
                  DidSignedDocumentStatus.issued := false;
                  DidSignedDocumentStatus.reason := Some (err_message e) |} /\
      map DidSignedDocumentStatus.did issuance = map id (issuers document) /\
      snd (DidSignedDocumentStatus.verify C document)
        = map (fun i => DidSignedDocumentStatus.CallGetPublicKey (id i))
              (issuers document) /\
      Core.status (fst (DidSignedDocumentStatus.verify C document)) = Core.INVALID /\
      Core.reason (fst (DidSignedDocumentStatus.verify C document)) = None.
Proof.
  intros C document proofs n issuer e Hproof Hsound Hnth He.
  destruct (verify_reduces C document proofs Hproof Hsound)
    as [outcomes [Houtcomes Hverify]].
  rewrite Hverify. cbn [fst snd].
  destruct (Forall2_nth_error_l _ _ _ n issuer Houtcomes Hnth)
    as [outcome [Ho [Hcheck _]]].
  rewrite (checkIssuer_resolver_failure C _ proofs issuer e He) in Hcheck.
  injection Hcheck as <-.
  assert (Hissued : forallb DidSignedDocumentStatus.issued (map fst outcomes) = false).
  { apply not_true_is_false. intros Hall.
    rewrite forallb_forall in Hall.
    specialize (Hall _ (in_map fst _ _ (nth_error_In _ _ Ho))). discriminate Hall. }
  unfold DidSignedDocumentStatus.reduceIssuers. cbn [Core.status Core.data Core.reason].
  rewrite Hissued. cbn [andb].
  exists (existsb snd outcomes), (map fst outcomes). repeat split.
  - now rewrite nth_error_map, Ho.
  - clear - Houtcomes. induction Houtcomes as [| i o rest os [_ Hdid] _ IH]; simpl.
    + reflexivity.
    + now rewrite Hdid, IH.
Qed.

Lemma resolver_failure_is_per_issuer_witness :
  exists revokedOnAny issuance,
    Core.data (fst (DidSignedDocumentStatus.verify Fixtures.sampleCapabilities
                      Fixtures.documentDidTwoIssuers))
      = Some (DidSignedDocumentStatus.Issuance false revokedOnAny issuance) /\
    nth_error issuance 0
      = Some {| DidSignedDocumentStatus.did := Fixtures.otherDid;
                DidSignedDocumentStatus.issued := false;
                DidSignedDocumentStatus.reason := Some "Error from DID resolver" |} /\
    map DidSignedDocumentStatus.did issuance = [Fixtures.otherDid; Fixtures.issuerDid] /\
    snd (DidSignedDocumentStatus.verify Fixtures.sampleCapabilities
           Fixtures.documentDidTwoIssuers)
      = [DidSignedDocumentStatus.CallGetPublicKey Fixtures.otherDid;
         DidSignedDocumentStatus.CallGetPublicKey Fixtures.issuerDid] /\
    Core.status (fst (DidSignedDocumentStatus.verify Fixtures.sampleCapabilities
                        Fixtures.documentDidTwoIssuers)) = Core.INVALID /\
    Core.reason (fst (DidSignedDocumentStatus.verify Fixtures.sampleCapabilities
                        Fixtures.documentDidTwoIssuers)) = None.
Proof.
  apply (resolver_failure_is_per_issuer Fixtures.sampleCapabilities
           Fixtures.documentDidTwoIssuers [Fixtures.controllerProof] 0
           (Fixtures.didIssuer Fixtures.otherDid Fixtures.revocationNone)
           (NewError "Error from DID resolver")).
  - reflexivity.
  - reflexivity.
  - reflexivity.
  - reflexivity.
Defined.

(** C8, as the specification words it, fails.  The resolver rejects for the
    first issuer of a document whose second issuer has a located proof and no
    revocation block: both issuers are resolved, and the fragment is the
    whole-fragment ERROR, not INVALID, and lists no per-issuer status.  And
    for a document without a proof array whose issuer the resolver rejects,
    the fragment is ERROR as well. *)
Lemma resolver_failure_with_hard_error_is_error :
  DidSignedDocumentStatus.getPublicKey Fixtures.sampleCapabilities Fixtures.otherDid
  = Throw (NewError "Error from DID resolver") /\
  (map id (issuers Fixtures.documentDidTwoIssuersObfuscated)
   = [Fixtures.otherDid; Fixtures.issuerDid] /\
   snd (DidSignedDocumentStatus.verify Fixtures.sampleCapabilities
          Fixtures.documentDidTwoIssuersObfuscated)
   = [DidSignedDocumentStatus.CallGetPublicKey Fixtures.otherDid;
      DidSignedDocumentStatus.CallGetPublicKey Fixtures.issuerDid] /\
   Core.status (fst (DidSignedDocumentStatus.verify Fixtures.sampleCapabilities
                       Fixtures.documentDidTwoIssuersObfuscated))
   = Core.ERROR /\
   Core.data (fst (DidSignedDocumentStatus.verify Fixtures.sampleCapabilities
                     Fixtures.documentDidTwoIssuersObfuscated))
   = Some (DidSignedDocumentStatus.Caught
             (NewError "revocation block not found for an issuer"))) /\
  (map id (issuers Fixtures.documentDidUnresolvableMissingProof) = [Fixtures.otherDid] /\
   Core.status (fst (DidSignedDocumentStatus.verify Fixtures.sampleCapabilities
                       Fixtures.documentDidUnresolvableMissingProof))
   = Core.ERROR).
Proof.
  repeat split.
Qed.

(** ** The reason of a fragment that is not VALID *)

(** C5, as the code has it.  The fragments of [skip] and of [verify] of the
    token-registry verifier, and of [skip] of the DID-signed verifier, carry
    a reason whenever their status is not VALID.  [verify] of the DID-signed
    verifier never returns SKIPPED, carries a reason on its ERROR fragments,
    and carries no top-level reason on its INVALID fragments. *)
Theorem reason_populated_unless_valid :
  (forall I : TokenRegistryStatus.Imports,
      Core.status (TokenRegistryStatus.skip I) <> Core.VALID ->
      exists r, Core.reason (TokenRegistryStatus.skip I) = Some r) /\
  (forall (I : TokenRegistryStatus.Imports) (document : WrappedDocument)
          (options : TokenRegistryStatus.Options I),
      Core.status (fst (TokenRegistryStatus.verify I document options)) <> Core.VALID ->
      exists r,
        Core.reason (fst (TokenRegistryStatus.verify I document options)) = Some r) /\
  (Core.status DidSignedDocumentStatus.skip <> Core.VALID ->
   exists r, Core.reason DidSignedDocumentStatus.skip = Some r) /\
  (forall (C : DidSignedDocumentStatus.Capabilities) (document : WrappedDocument),
      Core.status (fst (DidSignedDocumentStatus.verify C document)) <> Core.SKIPPED /\
      (Core.status (fst (DidSignedDocumentStatus.verify C document)) = Core.ERROR ->
       exists r,
         Core.reason (fst (DidSignedDocumentStatus.verify C document)) = Some r) /\
      (Core.status (fst (DidSignedDocumentStatus.verify C document)) = Core.INVALID ->
       Core.reason (fst (DidSignedDocumentStatus.verify C document)) = None)).
Proof.
  split; [| split; [| split]].
  - intros I _. simpl. eauto.
  - intros I document options. unfold TokenRegistryStatus.verify.
    rewrite verifyBody_cases.
    destruct (TokenRegistryStatus.getIssuersTokenRegistry I document)
      as [tokenRegistries | e]; [| simpl; eauto].
    destruct (1 <? length tokenRegistries)%nat; [simpl; eauto |].
    cbn [Eff.tryCatch fst]. intros Hstatus.
    destruct (reduceStatuses_not_valid document _ Hstatus) as [s [Hin [Hs ->]]].
    pose proof (registryStatuses_reason I options _ tokenRegistries s Hin Hs) as Hreason.
    destruct (TokenRegistryStatus.reason s) as [r |]; [eauto | congruence].
  - intros _. simpl. eauto.
  - intros C document.
    unfold DidSignedDocumentStatus.verify, DidSignedDocumentStatus.verifyBody.
    destruct (proof document) as [proofs |].
    + unfold Eff.bind, Eff.ret.
      destruct (DidSignedDocumentStatus.joinAll _) as [[outcomes | e] calls]; simpl.
      * destruct (forallb _ _ && negb _); repeat split; try discriminate.
      * repeat split; try discriminate. eauto.
    + simpl. repeat split; try discriminate. eauto.
Qed.

Lemma reason_populated_unless_valid_witness :
  (exists r,
      Core.reason (fst (TokenRegistryStatus.verify Fixtures.sampleImports
                          Fixtures.documentNotMinted "ropsten")) = Some r) /\
  (exists r,
      Core.reason (fst (DidSignedDocumentStatus.verify Fixtures.sampleCapabilities
                          Fixtures.documentDidObfuscatedRevocation)) = Some r) /\
  Core.reason (fst (DidSignedDocumentStatus.verify Fixtures.sampleCapabilities
                      Fixtures.documentDidTwoIssuers)) = None.
Proof.
  destruct reason_populated_unless_valid as (_ & Hverify & _ & Hdid).
  split; [| split].
  - apply (Hverify Fixtures.sampleImports Fixtures.documentNotMinted "ropsten").
    discriminate.
  - apply (Hdid Fixtures.sampleCapabilities Fixtures.documentDidObfuscatedRevocation).
    reflexivity.
  - apply (Hdid Fixtures.sampleCapabilities Fixtures.documentDidTwoIssuers).
    reflexivity.
Defined.

(** C5, as the specification words it, fails: for the document whose issuer
    declares a custom revocation, [verify] of the DID-signed verifier returns
    an INVALID fragment without a reason. *)
Lemma did_signed_invalid_fragment_has_no_reason :
  Core.status (fst (DidSignedDocumentStatus.verify Fixtures.sampleCapabilities
                      Fixtures.documentDidCustomRevocation)) = Core.INVALID /\
  Core.status (fst (DidSignedDocumentStatus.verify Fixtures.sampleCapabilities
                      Fixtures.documentDidCustomRevocation)) <> Core.VALID /\
  Core.reason (fst (DidSignedDocumentStatus.verify Fixtures.sampleCapabilities
                      Fixtures.documentDidCustomRevocation)) = None.
Proof.
  repeat split. discriminate.
Qed.

(** ** The document store *)

(** C9.  On a chain where the zero address holds no code, [execute] at the
    zero address with method [isIssued] rejects with the message
    "contract not deployed", whatever the arguments; that message differs
    from the ones of the invalid-argument and method-not-found failures. *)
Theorem execute_zero_address_not_deployed :
  forall (chain : DocumentStore.Chain) (args : list string),
    DocumentStore.hasCode chain DocumentStore.zeroAddress = false ->
    DocumentStore.execute chain
      {| DocumentStore.contractAddress := DocumentStore.zeroAddress;
         DocumentStore.method := "isIssued";
         DocumentStore.args := args |}
    = Throw (NewError "contract not deployed") /\
    DocumentStore.contractNotDeployed <> DocumentStore.invalidInputArgument /\
    DocumentStore.contractNotDeployed <> DocumentStore.methodNotFound /\
    DocumentStore.invalidInputArgument <> DocumentStore.methodNotFound.
Proof.
  intros chain args Hcode. unfold DocumentStore.execute.
  cbn [DocumentStore.contractAddress]. rewrite Hcode.
  repeat split; discriminate.
Qed.

Lemma execute_zero_address_not_deployed_witness :
  DocumentStore.hasCode Fixtures.sampleChain DocumentStore.zeroAddress = false /\
  DocumentStore.execute Fixtures.sampleChain
    {| DocumentStore.contractAddress := "0x0000000000000000000000000000000000000000";
       DocumentStore.method := "isIssued";
       DocumentStore.args := [Fixtures.zeroHash] |}
  = Throw (NewError "contract not deployed").
Proof.
  split; [reflexivity |].
  apply (execute_zero_address_not_deployed Fixtures.sampleChain [Fixtures.zeroHash]).
  reflexivity.
Defined.

(** * Further properties of the token-registry verifier *)

Section RegistryFanOut.

Import Core TokenRegistryStatus.

Variable I : Imports.

Lemma combine_map_r {A B} (g : A -> B) (l : list A) :
  combine l (map g l) = map (fun x => (x, g x)) l.
Proof. induction l as [| x l IH]; simpl; [reflexivity | now rewrite IH]. Qed.

(** The status of one registry, as the callback computes it from start to
    end. *)
Lemma registryStatuses_statuses (options : Options I) (merkleRoot : string)
      (tokenRegistries : list string) :
  fst (registryStatuses I options merkleRoot tokenRegistries)
  = map (fun r => fst (mintedStatus I merkleRoot r
                         (fst (connectRegistry I options r))))
        tokenRegistries.
Proof.
  unfold registryStatuses. cbn [fst].
  now rewrite combine_map_r, !map_map.
Qed.

Lemma registryStatuses_calls (options : Options I) (merkleRoot : string)
      (tokenRegistries : list string) :
  snd (registryStatuses I options merkleRoot tokenRegistries)
  = concat (map (fun r => snd (connectRegistry I options r)) tokenRegistries)
    ++ concat (map (fun r => snd (mintedStatus I merkleRoot r
                                    (fst (connectRegistry I options r))))
                   tokenRegistries).
Proof.
  unfold registryStatuses. cbn [snd].
  now rewrite combine_map_r, !map_map.
Qed.

Lemma connectRegistry_cases (options : Options I) (tokenRegistry : string) :
  connectRegistry I options tokenRegistry =
  match getProvider I options with
  | Throw e => (Throw e, [CallGetProvider])
  | Ok provider =>
      (connect I tokenRegistry provider,
       [CallGetProvider; CallConnect tokenRegistry])
  end.
Proof.
  unfold connectRegistry, Eff.bind, Eff.emit, Eff.lift.
  destruct (getProvider I options) as [provider | e]; [| reflexivity].
  destruct (connect I tokenRegistry provider); reflexivity.
Qed.

Lemma mintedStatus_cases (merkleRoot tokenRegistry : string)
      (connected : result (Contract I)) :
  mintedStatus I merkleRoot tokenRegistry connected =
  match connected with
  | Throw e =>
      ({| minted := false; address := tokenRegistry;
          TokenRegistryStatus.reason :=
            Some (getErrorReason I e tokenRegistry merkleRoot) |}, [])
  | Ok contract =>
      (match ownerOf I contract merkleRoot with
       | Throw e =>
           {| minted := false; address := tokenRegistry;
              TokenRegistryStatus.reason :=
                Some (getErrorReason I e tokenRegistry merkleRoot) |}
       | Ok owner =>
           {| minted := negb (owner =? AddressZero); address := tokenRegistry;
              TokenRegistryStatus.reason :=
                if negb (owner =? AddressZero) then None
                else Some (contractNotMinted I merkleRoot tokenRegistry) |}
       end, [CallOwnerOf tokenRegistry merkleRoot])
  end.
Proof.
  unfold mintedStatus, Eff.tryCatch, Eff.bind, Eff.emit, Eff.lift, Eff.ret.
  destruct connected as [contract | e]; [| reflexivity].
  destruct (ownerOf I contract merkleRoot); reflexivity.
Qed.

(** What [verify] does for a document with exactly one registry. *)
Lemma verify_single (document : WrappedDocument) (options : Options I)
      (tokenRegistry : string) :
  getIssuersTokenRegistry I document = Ok [tokenRegistry] ->
  verify I document options =
  (reduceStatuses document
     [fst (mintedStatus I (tokenId document) tokenRegistry
             (fst (connectRegistry I options tokenRegistry)))],
   snd (connectRegistry I options tokenRegistry)
   ++ snd (mintedStatus I (tokenId document) tokenRegistry
             (fst (connectRegistry I options tokenRegistry)))).
Proof.
  intros Hregs.
  rewrite (verify_reaches_reduction I document options [tokenRegistry] Hregs)
    by (simpl; lia).
  rewrite registryStatuses_statuses, registryStatuses_calls.
  cbn [map concat]. now rewrite !app_nil_r.
Qed.

Lemma reduceStatuses_status (document : WrappedDocument) (statuses : list Status) :
  Core.status (reduceStatuses document statuses)
  = if forallb minted statuses then VALID else INVALID.
Proof.
  unfold reduceStatuses. induction statuses as [| s l IH]; simpl; [reflexivity |].
  destruct (minted s); simpl; [| reflexivity].
  destruct (find (fun status => negb (minted status)) l); exact IH.
Qed.

Lemma at_most_one {A} (l : list A) :
  (length l <= 1)%nat -> l = [] \/ exists x, l = [x].
Proof.
  destruct l as [| x [| y l]]; simpl; intros H; [now left | right; eauto | lia].
Qed.

End RegistryFanOut.

(** C1, as the code has it.  [verify] of the token-registry verifier turns
    every failure into a fragment, and which fragment depends on where the
    failure is raised.  A failure before the registries are dispatched, that
    is [getIssuersTokenRegistry] throwing [e] or the guard on more than one
    registry, gives the ERROR fragment whose reason has code
    UNEXPECTED_ERROR and the message of the failure, with the failure as
    data and without any capability call.  A failure [e] of the chain-read
    capability for the registry ([getProvider], [connect] or [ownerOf]) is
    caught in the callback of that registry and gives the INVALID fragment
    whose reason is [getErrorReason] of [e].  An ERROR fragment has no other
    origin than the first two. *)
Theorem verify_failures_become_fragments :
  forall (I : TokenRegistryStatus.Imports) (document : WrappedDocument)
         (options : TokenRegistryStatus.Options I),
    let codes := TokenRegistryStatus.OpenAttestationEthereumTokenRegistryStatusCode I in
    let errorFragment (e : JsError) : TokenRegistryStatus.Fragment :=
      {| Core.name := TokenRegistryStatus.name;
         Core.type := Core.DOCUMENT_STATUS;
         Core.status := Core.ERROR;
         Core.data := Some (TokenRegistryStatus.Caught e);
         Core.reason :=
           Some {| Core.code := Core.enum_UNEXPECTED_ERROR codes;
                   Core.codeString :=
                     Core.enum_name codes (Core.enum_UNEXPECTED_ERROR codes);
                   Core.message := err_message e |} |} in
    (forall e : JsError,
        TokenRegistryStatus.getIssuersTokenRegistry I document = Throw e ->
        TokenRegistryStatus.verify I document options = (errorFragment e, [])) /\
    (forall tokenRegistries : list string,
        TokenRegistryStatus.getIssuersTokenRegistry I document = Ok tokenRegistries ->
        (1 < length tokenRegistries)%nat ->
        TokenRegistryStatus.verify I document options
        = (errorFragment
             (NewError ("Only one token registry is allowed. Found "
                          ++ numberToString (length tokenRegistries))), [])) /\
    (forall (tokenRegistry : string) (e : JsError),
        TokenRegistryStatus.getIssuersTokenRegistry I document = Ok [tokenRegistry] ->
        (TokenRegistryStatus.getProvider I options = Throw e \/
         (exists provider,
             TokenRegistryStatus.getProvider I options = Ok provider /\
             TokenRegistryStatus.connect I tokenRegistry provider = Throw e) \/
         (exists provider contract,
             TokenRegistryStatus.getProvider I options = Ok provider /\
             TokenRegistryStatus.connect I tokenRegistry provider = Ok contract /\
             TokenRegistryStatus.ownerOf I contract
               (TokenRegistryStatus.tokenId document) = Throw e)) ->
        Core.status (fst (TokenRegistryStatus.verify I document options))
        = Core.INVALID /\
        Core.reason (fst (TokenRegistryStatus.verify I document options))
        = Some (TokenRegistryStatus.getErrorReason I e tokenRegistry
                  (TokenRegistryStatus.tokenId document)) /\
        exists details,
          Core.data (fst (TokenRegistryStatus.verify I document options))
          = Some (TokenRegistryStatus.Minting false details)) /\
    (Core.status (fst (TokenRegistryStatus.verify I document options)) = Core.ERROR ->
     (exists e, TokenRegistryStatus.getIssuersTokenRegistry I document = Throw e) \/
     (exists tokenRegistries,
         TokenRegistryStatus.getIssuersTokenRegistry I document = Ok tokenRegistries /\
         (1 < length tokenRegistries)%nat)).
Proof.
  intros I document options codes errorFragment. repeat apply conj.
  - intros e He. unfold TokenRegistryStatus.verify.
    rewrite verifyBody_cases, He. reflexivity.
  - intros tokenRegistries Hregs Hlen. unfold TokenRegistryStatus.verify.
    rewrite verifyBody_cases, Hregs. apply Nat.ltb_lt in Hlen. rewrite Hlen.
    reflexivity.
  - intros tokenRegistry e Hregs Hfailure.
    rewrite (verify_single I document options tokenRegistry Hregs).
    rewrite connectRegistry_cases. cbn [fst].
    destruct Hfailure as [Hprovider | [[provider [Hprovider Hconnect]]
                                      | [provider [contract [Hprovider [Hconnect Howner]]]]]];
      rewrite Hprovider; cbn [fst]; try rewrite Hconnect;
      rewrite mintedStatus_cases; try rewrite Howner;
      (split; [reflexivity | split; [reflexivity | eexists; reflexivity]]).
  - unfold TokenRegistryStatus.verify. rewrite verifyBody_cases.
    destruct (TokenRegistryStatus.getIssuersTokenRegistry I document)
      as [tokenRegistries | e]; [| intros _; left; eauto].
    destruct (Nat.ltb_spec 1 (length tokenRegistries)) as [Hlen | Hlen].
    + intros _. right. exists tokenRegistries. now split.
    + cbn [Eff.tryCatch fst]. rewrite reduceStatuses_status.
      destruct (forallb _ _); discriminate.
Qed.

Lemma verify_failures_become_fragments_witness :
  (Core.status (fst (TokenRegistryStatus.verify Fixtures.brokenImports
                       Fixtures.documentMinted "ropsten")) = Core.ERROR /\
   option_map Core.message
     (Core.reason (fst (TokenRegistryStatus.verify Fixtures.brokenImports
                          Fixtures.documentMinted "ropsten")))
   = Some "Cannot read property 'issuers' of undefined") /\
  (Core.status (fst (TokenRegistryStatus.verify Fixtures.sampleImports
                       Fixtures.documentTwoRegistries "ropsten")) = Core.ERROR /\
   option_map Core.message
     (Core.reason (fst (TokenRegistryStatus.verify Fixtures.sampleImports
                          Fixtures.documentTwoRegistries "ropsten")))
   = Some "Only one token registry is allowed. Found 2") /\
  (Core.status (fst (TokenRegistryStatus.verify Fixtures.sampleImports
                       Fixtures.documentCallFails "ropsten")) = Core.INVALID /\
   option_map Core.codeString
     (Core.reason (fst (TokenRegistryStatus.verify Fixtures.sampleImports
                          Fixtures.documentCallFails "ropsten")))
   = Some "ETHERS_UNHANDLED_ERROR").
Proof.
  destruct (verify_failures_become_fragments Fixtures.brokenImports
              Fixtures.documentMinted "ropsten") as (Hthrow & _).
  destruct (verify_failures_become_fragments Fixtures.sampleImports
              Fixtures.documentTwoRegistries "ropsten") as (_ & Hguard & _).
  destruct (verify_failures_become_fragments Fixtures.sampleImports
              Fixtures.documentCallFails "ropsten") as (_ & _ & Hchain & _).
  split; [| split].
  - rewrite (Hthrow (NewError "Cannot read property 'issuers' of undefined") eq_refl).
    split; reflexivity.
  - rewrite (Hguard [Fixtures.registryA; Fixtures.registryB] eq_refl (le_n 2)).
    split; reflexivity.
  - destruct (Hchain Fixtures.registryC (NewError "call exception") eq_refl)
      as (Hstatus & Hreason & _).
    + right. right. exists "ropsten", Fixtures.registryC. repeat split.
    + split; [exact Hstatus |]. rewrite Hreason. reflexivity.
Defined.

(** C1, as the specification words it, fails: for a document whose registry
    the chain fails the call for, [ownerOf] is called inside the body of
    [verify] and rejects with "call exception", and the fragment is INVALID
    with the reason of [getErrorReason], not ERROR with the code
    UNEXPECTED_ERROR and the message of the failure. *)
Lemma chain_failure_is_not_an_error_fragment :
  let result := TokenRegistryStatus.verify Fixtures.sampleImports
                  Fixtures.documentCallFails "ropsten" in
  In (TokenRegistryStatus.CallOwnerOf Fixtures.registryC
        (TokenRegistryStatus.tokenId Fixtures.documentCallFails)) (snd result) /\
  TokenRegistryStatus.ownerOf Fixtures.sampleImports Fixtures.registryC
    (TokenRegistryStatus.tokenId Fixtures.documentCallFails)
  = Throw (NewError "call exception") /\
  Core.status (fst result) = Core.INVALID /\
  Core.status (fst result) <> Core.ERROR /\
  option_map Core.code (Core.reason (fst result))
  <> Some (Core.enum_UNEXPECTED_ERROR
             (TokenRegistryStatus.OpenAttestationEthereumTokenRegistryStatusCode
                Fixtures.sampleImports)) /\
  option_map Core.message (Core.reason (fst result)) <> Some "call exception".
Proof.
  cbv zeta. repeat split; try discriminate.
  simpl. right. right. left. reflexivity.
Qed.

(** X1.  A document with one registry whose connection succeeds and whose
    token has an owner other than the zero address: [verify] returns the
    VALID fragment with [mintedOnAll = true], no reason, and the single
    status [{minted: true, address}] as details (flat for v3, a one-element
    array otherwise), after exactly the calls [getProvider], [connect],
    [ownerOf] on that registry and the document's token identifier. *)
Theorem single_registry_minted_is_valid :
  forall (I : TokenRegistryStatus.Imports) (document : WrappedDocument)
         (options : TokenRegistryStatus.Options I) (tokenRegistry : string)
         (provider : TokenRegistryStatus.Provider I)
         (contract : TokenRegistryStatus.Contract I) (owner : string),
    TokenRegistryStatus.getIssuersTokenRegistry I document = Ok [tokenRegistry] ->
    TokenRegistryStatus.getProvider I options = Ok provider ->
    TokenRegistryStatus.connect I tokenRegistry provider = Ok contract ->
    TokenRegistryStatus.ownerOf I contract (TokenRegistryStatus.tokenId document)
      = Ok owner ->
    owner <> TokenRegistryStatus.AddressZero ->
    let status :=
      {| TokenRegistryStatus.minted := true;
         TokenRegistryStatus.address := tokenRegistry;
         TokenRegistryStatus.reason := None |} in
    TokenRegistryStatus.verify I document options =
    ({| Core.name := TokenRegistryStatus.name;
        Core.type := Core.DOCUMENT_STATUS;
        Core.status := Core.VALID;
        Core.data := Some (TokenRegistryStatus.Minting true
                             (if isWrappedV3Document document
                              then TokenRegistryStatus.First (Some status)
                              else TokenRegistryStatus.All [status]));
        Core.reason := None |},
     [TokenRegistryStatus.CallGetProvider;
      TokenRegistryStatus.CallConnect tokenRegistry;
      TokenRegistryStatus.CallOwnerOf tokenRegistry
        (TokenRegistryStatus.tokenId document)]).
Proof.
  intros I document options tokenRegistry provider contract owner
         Hregs Hprovider Hconnect Howner Hnonzero.
  rewrite (verify_single I document options tokenRegistry Hregs).
  rewrite connectRegistry_cases, Hprovider, Hconnect. cbn [fst snd].
  rewrite mintedStatus_cases, Howner.
  apply String.eqb_neq in Hnonzero. rewrite Hnonzero. cbn [negb fst snd app].
  unfold TokenRegistryStatus.reduceStatuses. reflexivity.
Qed.

Lemma single_registry_minted_is_valid_witness :
  Core.status (fst (TokenRegistryStatus.verify Fixtures.sampleImports
                      Fixtures.documentMinted "ropsten")) = Core.VALID /\
  length (snd (TokenRegistryStatus.verify Fixtures.sampleImports
                 Fixtures.documentMinted "ropsten")) = 3%nat.
Proof.
  rewrite (single_registry_minted_is_valid Fixtures.sampleImports
             Fixtures.documentMinted "ropsten" Fixtures.registryA
             "ropsten" Fixtures.registryA Fixtures.holder
             eq_refl eq_refl eq_refl eq_refl).
  - split; reflexivity.
  - discriminate.
Defined.

(** X2.  A document with one registry whose connection succeeds and whose
    token is owned by the zero address: [verify] returns the INVALID fragment
    with [mintedOnAll = false] whose reason is [contractNotMinted] for the
    token identifier and the registry, the same reason as in the single
    status of the details, after the same three calls. *)
Theorem single_registry_zero_owner_is_invalid :
  forall (I : TokenRegistryStatus.Imports) (document : WrappedDocument)
         (options : TokenRegistryStatus.Options I) (tokenRegistry : string)
         (provider : TokenRegistryStatus.Provider I)
         (contract : TokenRegistryStatus.Contract I),
    TokenRegistryStatus.getIssuersTokenRegistry I document = Ok [tokenRegistry] ->
    TokenRegistryStatus.getProvider I options = Ok provider ->
    TokenRegistryStatus.connect I tokenRegistry provider = Ok contract ->
    TokenRegistryStatus.ownerOf I contract (TokenRegistryStatus.tokenId document)
      = Ok TokenRegistryStatus.AddressZero ->
    let notMinted :=
      TokenRegistryStatus.contractNotMinted I
        (TokenRegistryStatus.tokenId document) tokenRegistry in
    let status :=
      {| TokenRegistryStatus.minted := false;
         TokenRegistryStatus.address := tokenRegistry;
         TokenRegistryStatus.reason := Some notMinted |} in
    TokenRegistryStatus.verify I document options =
    ({| Core.name := TokenRegistryStatus.name;
        Core.type := Core.DOCUMENT_STATUS;
        Core.status := Core.INVALID;
        Core.data := Some (TokenRegistryStatus.Minting false
                             (if isWrappedV3Document document
                              then TokenRegistryStatus.First (Some status)
                              else TokenRegistryStatus.All [status]));
        Core.reason := Some notMinted |},
     [TokenRegistryStatus.CallGetProvider;
      TokenRegistryStatus.CallConnect tokenRegistry;
      TokenRegistryStatus.CallOwnerOf tokenRegistry
        (TokenRegistryStatus.tokenId document)]).
Proof.
  intros I document options tokenRegistry provider contract
         Hregs Hprovider Hconnect Howner.
  rewrite (verify_single I document options tokenRegistry Hregs).
  rewrite connectRegistry_cases, Hprovider, Hconnect. cbn [fst snd].
  rewrite mintedStatus_cases, Howner, String.eqb_refl. cbn [negb fst snd app].
  unfold TokenRegistryStatus.reduceStatuses. reflexivity.
Qed.

Lemma single_registry_zero_owner_is_invalid_witness :
  Core.status (fst (TokenRegistryStatus.verify Fixtures.sampleImports
                      Fixtures.documentNotMintedV3 "ropsten")) = Core.INVALID /\
  option_map Core.codeString
    (Core.reason (fst (TokenRegistryStatus.verify Fixtures.sampleImports
                         Fixtures.documentNotMintedV3 "ropsten")))
  = Some "DOCUMENT_NOT_MINTED".
Proof.
  rewrite (single_registry_zero_owner_is_invalid Fixtures.sampleImports
             Fixtures.documentNotMintedV3 "ropsten" Fixtures.registryB
             "ropsten" Fixtures.registryB
             eq_refl eq_refl eq_refl eq_refl).
  split; reflexivity.
Defined.

(** X3.  A failure of the chain-read capability for the single registry of a
    document, whether [getProvider] throws, [connect] throws or [ownerOf]
    rejects, never makes the fragment an ERROR: [verify] returns the INVALID
    fragment with [mintedOnAll = false] whose reason is [getErrorReason] of
    the failure, the registry and the token identifier. *)
Theorem chain_failure_is_invalid_not_error :
  forall (I : TokenRegistryStatus.Imports) (document : WrappedDocument)
         (options : TokenRegistryStatus.Options I) (tokenRegistry : string)
         (e : JsError),
    TokenRegistryStatus.getIssuersTokenRegistry I document = Ok [tokenRegistry] ->
    (TokenRegistryStatus.getProvider I options = Throw e \/
     (exists provider,
         TokenRegistryStatus.getProvider I options = Ok provider /\
         TokenRegistryStatus.connect I tokenRegistry provider = Throw e) \/
     (exists provider contract,
         TokenRegistryStatus.getProvider I options = Ok provider /\
         TokenRegistryStatus.connect I tokenRegistry provider = Ok contract /\
         TokenRegistryStatus.ownerOf I contract (TokenRegistryStatus.tokenId document)
         = Throw e)) ->
    let reason :=
      TokenRegistryStatus.getErrorReason I e tokenRegistry
        (TokenRegistryStatus.tokenId document) in
    let status :=
      {| TokenRegistryStatus.minted := false;
         TokenRegistryStatus.address := tokenRegistry;
         TokenRegistryStatus.reason := Some reason |} in
    fst (TokenRegistryStatus.verify I document options) =
    {| Core.name := TokenRegistryStatus.name;
       Core.type := Core.DOCUMENT_STATUS;
       Core.status := Core.INVALID;
       Core.data := Some (TokenRegistryStatus.Minting false
                            (if isWrappedV3Document document
                             then TokenRegistryStatus.First (Some status)
                             else TokenRegistryStatus.All [status]));
       Core.reason := Some reason |}.
Proof.
  intros I document options tokenRegistry e Hregs Hfailure.
  rewrite (verify_single I document options tokenRegistry Hregs).
  rewrite connectRegistry_cases. cbn [fst].
  destruct Hfailure as [Hprovider | [[provider [Hprovider Hconnect]]
                                    | [provider [contract [Hprovider [Hconnect Howner]]]]]];
    rewrite Hprovider; cbn [fst]; try rewrite Hconnect;
    rewrite mintedStatus_cases; try rewrite Howner; reflexivity.
Qed.

Lemma chain_failure_is_invalid_not_error_witness :
  Core.status (fst (TokenRegistryStatus.verify Fixtures.sampleImports
                      Fixtures.documentCallFails "ropsten")) = Core.INVALID /\
  option_map Core.message
    (Core.reason (fst (TokenRegistryStatus.verify Fixtures.sampleImports
                         Fixtures.documentCallFails "ropsten")))
  = Some "Error with smart contract 0x0000000000000000000000000000000000000001: call exception".
Proof.
  rewrite (chain_failure_is_invalid_not_error Fixtures.sampleImports
             Fixtures.documentCallFails "ropsten" Fixtures.registryC
             (NewError "call exception") eq_refl).
  - split; reflexivity.
  - right. right. exists "ropsten", Fixtures.registryC. repeat split.
Defined.

(** X4.  [verify] returns an ERROR fragment exactly when
    [getIssuersTokenRegistry] throws or returns more than one entry (repeated
    addresses count); an ERROR fragment is always returned before any call
    on the chain-read capability. *)
Theorem error_exactly_before_dispatch :
  forall (I : TokenRegistryStatus.Imports) (document : WrappedDocument)
         (options : TokenRegistryStatus.Options I),
    (Core.status (fst (TokenRegistryStatus.verify I document options)) = Core.ERROR <->
     (exists e, TokenRegistryStatus.getIssuersTokenRegistry I document = Throw e) \/
     (exists tokenRegistries,
         TokenRegistryStatus.getIssuersTokenRegistry I document = Ok tokenRegistries /\
         (1 < length tokenRegistries)%nat)) /\
    (Core.status (fst (TokenRegistryStatus.verify I document options)) = Core.ERROR ->
     snd (TokenRegistryStatus.verify I document options) = []).
Proof.
  intros I document options. unfold TokenRegistryStatus.verify.
  rewrite verifyBody_cases.
  destruct (TokenRegistryStatus.getIssuersTokenRegistry I document)
    as [tokenRegistries | e].
  - destruct (Nat.ltb_spec 1 (length tokenRegistries)) as [Hlen | Hlen];
      cbn [Eff.tryCatch fst snd].
    + split; [| reflexivity]. split; [| reflexivity].
      intros _. right. exists tokenRegistries. now split.
    + rewrite reduceStatuses_status.
      destruct (forallb _ _); (split; [split |]); try discriminate.
      * intros [[e He] | [l [Hl Hlt]]]; [discriminate |].
        injection Hl as <-. lia.
      * intros [[e He] | [l [Hl Hlt]]]; [discriminate |].
        injection Hl as <-. lia.
  - cbn [Eff.tryCatch fst snd]. split; [| reflexivity]. split; [| reflexivity].
    intros _. left. eauto.
Qed.

Lemma error_exactly_before_dispatch_witness :
  Core.status (fst (TokenRegistryStatus.verify Fixtures.sampleImports
                      Fixtures.documentTwoRegistries "ropsten")) = Core.ERROR /\
  snd (TokenRegistryStatus.verify Fixtures.sampleImports
         Fixtures.documentTwoRegistries "ropsten") = [].
Proof.
  destruct (error_exactly_before_dispatch Fixtures.sampleImports
              Fixtures.documentTwoRegistries "ropsten") as [[_ Hif] Hcalls].
  assert (Herror : Core.status (fst (TokenRegistryStatus.verify Fixtures.sampleImports
                                       Fixtures.documentTwoRegistries "ropsten"))
                   = Core.ERROR).
  { apply Hif. right. exists [Fixtures.registryA; Fixtures.registryB].
    split; [reflexivity | simpl; lia]. }
  split; [exact Herror | exact (Hcalls Herror)].
Defined.

(** X5.  The calls of one [verify] are a prefix of [getProvider],
    [connect r], [ownerOf r id] for a single registry [r] and the document's
    token identifier [id]: never more than three calls, never a second
    registry, never [ownerOf] without the two calls before it. *)
Theorem calls_are_one_registry_prefix :
  forall (I : TokenRegistryStatus.Imports) (document : WrappedDocument)
         (options : TokenRegistryStatus.Options I),
    let calls := snd (TokenRegistryStatus.verify I document options) in
    calls = [] \/
    exists tokenRegistry,
      TokenRegistryStatus.getIssuersTokenRegistry I document = Ok [tokenRegistry] /\
      (calls = [TokenRegistryStatus.CallGetProvider] \/
       calls = [TokenRegistryStatus.CallGetProvider;
                TokenRegistryStatus.CallConnect tokenRegistry] \/
       calls = [TokenRegistryStatus.CallGetProvider;
                TokenRegistryStatus.CallConnect tokenRegistry;
                TokenRegistryStatus.CallOwnerOf tokenRegistry
                  (TokenRegistryStatus.tokenId document)]).
Proof.
  intros I document options. cbv zeta.
  destruct (TokenRegistryStatus.getIssuersTokenRegistry I document)
    as [tokenRegistries | e] eqn:Hregs.
  - destruct (Nat.ltb_spec 1 (length tokenRegistries)) as [Hlen | Hlen].
    + left. unfold TokenRegistryStatus.verify. rewrite verifyBody_cases, Hregs.
      apply Nat.ltb_lt in Hlen. now rewrite Hlen.
    + destruct (at_most_one tokenRegistries Hlen) as [-> | [r ->]].
      * left. now rewrite (verify_reaches_reduction I document options [] Hregs Hlen).
      * right. exists r. split; [reflexivity |].
        rewrite (verify_single I document options r Hregs). cbn [snd].
        rewrite connectRegistry_cases.
        destruct (TokenRegistryStatus.getProvider I options) as [provider | e];
          cbn [fst snd]; rewrite mintedStatus_cases.
        -- destruct (TokenRegistryStatus.connect I r provider); cbn [snd app]; auto.
        -- cbn [snd app]. auto.
  - left. unfold TokenRegistryStatus.verify. now rewrite verifyBody_cases, Hregs.
Qed.

(** X6.  The fragment of [verify] always carries the verifier's name and the
    type DOCUMENT_STATUS and has one of three shapes: VALID with
    [mintedOnAll = true] and no reason; INVALID with [mintedOnAll = false]
    and a reason; ERROR with the caught error as data and the
    UNEXPECTED_ERROR reason made from its message.  It is never SKIPPED. *)
Theorem verify_fragment_shapes :
  forall (I : TokenRegistryStatus.Imports) (document : WrappedDocument)
         (options : TokenRegistryStatus.Options I),
    let fragment := fst (TokenRegistryStatus.verify I document options) in
    Core.name fragment = "OpenAttestationEthereumTokenRegistryStatus" /\
    Core.type fragment = Core.DOCUMENT_STATUS /\
    ((Core.status fragment = Core.VALID /\
      Core.reason fragment = None /\
      exists details,
        Core.data fragment = Some (TokenRegistryStatus.Minting true details)) \/
     (Core.status fragment = Core.INVALID /\
      (exists r, Core.reason fragment = Some r) /\
      exists details,
        Core.data fragment = Some (TokenRegistryStatus.Minting false details)) \/
     (Core.status fragment = Core.ERROR /\
      exists e,
        Core.data fragment = Some (TokenRegistryStatus.Caught e) /\
        fragment = TokenRegistryStatus.unexpectedError I e /\
        option_map Core.message (Core.reason fragment) = Some (err_message e))).
Proof.
  intros I document options. cbv zeta.
  unfold TokenRegistryStatus.verify. rewrite verifyBody_cases.
  destruct (TokenRegistryStatus.getIssuersTokenRegistry I document)
    as [tokenRegistries | e].
  - destruct (1 <? length tokenRegistries)%nat; cbn [Eff.tryCatch fst].
    + repeat split. right. right. split; [reflexivity |]. eexists. repeat split.
    + set (statuses := fst (TokenRegistryStatus.registryStatuses I options
                              (TokenRegistryStatus.tokenId document) tokenRegistries)).
      assert (Hreasons : forall s, In s statuses ->
                TokenRegistryStatus.minted s = false ->
                TokenRegistryStatus.reason s <> None)
        by (intros s; apply registryStatuses_reason).
      clearbody statuses. unfold TokenRegistryStatus.reduceStatuses.
      destruct (find _ statuses) as [s |] eqn:Hfind; cbn.
      * repeat split. right. left. split; [reflexivity |].
        apply find_some in Hfind. destruct Hfind as [Hin Hs].
        apply negb_true_iff in Hs. specialize (Hreasons s Hin Hs).
        split; [| eauto].
        destruct (TokenRegistryStatus.reason s) as [r |]; [eauto | congruence].
      * repeat split. left. repeat split. eauto.
  - cbn [Eff.tryCatch fst]. repeat split. right. right.
    split; [reflexivity |]. eexists. repeat split.
Qed.

Section StatusFacts.

Import Core TokenRegistryStatus.

Variable I : Imports.

Lemma mintedStatus_address (merkleRoot tokenRegistry : string)
      (connected : result (Contract I)) :
  address (fst (mintedStatus I merkleRoot tokenRegistry connected)) = tokenRegistry.
Proof.
  rewrite mintedStatus_cases. destruct connected as [contract | e]; [| reflexivity].
  cbn [fst]. destruct (ownerOf I contract merkleRoot); reflexivity.
Qed.

Lemma mintedStatus_reason_iff (merkleRoot tokenRegistry : string)
      (connected : result (Contract I)) :
  TokenRegistryStatus.reason (fst (mintedStatus I merkleRoot tokenRegistry connected))
  = None <->
  minted (fst (mintedStatus I merkleRoot tokenRegistry connected)) = true.
Proof.
  rewrite mintedStatus_cases. destruct connected as [contract | e]; cbn [fst].
  - destruct (ownerOf I contract merkleRoot) as [owner | e]; cbn.
    + destruct (owner =? AddressZero); cbn; split; congruence.
    + split; discriminate.
  - cbn. split; discriminate.
Qed.

End StatusFacts.

(** X7.  For any list of registries, the fan-out produces one status per
    registry, in registry order and carrying that registry's address; a
    status has a reason exactly when it is not minted; and the status of a
    registry is the one it would get if it were the only registry, whatever
    happens to the others. *)
Theorem statuses_follow_registries :
  forall (I : TokenRegistryStatus.Imports) (options : TokenRegistryStatus.Options I)
         (merkleRoot : string) (tokenRegistries : list string),
    let statuses :=
      fst (TokenRegistryStatus.registryStatuses I options merkleRoot tokenRegistries) in
    map TokenRegistryStatus.address statuses = tokenRegistries /\
    Forall (fun s => TokenRegistryStatus.reason s = None <->
                     TokenRegistryStatus.minted s = true) statuses /\
    forall (n : nat) (tokenRegistry : string),
      nth_error tokenRegistries n = Some tokenRegistry ->
      nth_error statuses n
      = nth_error (fst (TokenRegistryStatus.registryStatuses I options merkleRoot
                          [tokenRegistry])) 0.
Proof.
  intros I options merkleRoot tokenRegistries. cbv zeta.
  rewrite registryStatuses_statuses. repeat split.
  - rewrite map_map. induction tokenRegistries as [| r l IH]; cbn [map];
      [reflexivity |]. now rewrite mintedStatus_address, IH.
  - apply Forall_forall. intros s Hin. apply in_map_iff in Hin.
    destruct Hin as [r [<- _]]. apply mintedStatus_reason_iff.
  - intros n r Hnth. rewrite registryStatuses_statuses. cbn [map nth_error].
    rewrite nth_error_map, Hnth. reflexivity.
Qed.

Lemma statuses_follow_registries_witness :
  map TokenRegistryStatus.address
      (fst (TokenRegistryStatus.registryStatuses Fixtures.sampleImports "ropsten"
              ("0x" ++ Fixtures.sampleRoot)
              [Fixtures.registryC; Fixtures.registryA; Fixtures.registryB]))
  = [Fixtures.registryC; Fixtures.registryA; Fixtures.registryB] /\
  option_map TokenRegistryStatus.minted
    (nth_error
       (fst (TokenRegistryStatus.registryStatuses Fixtures.sampleImports "ropsten"
               ("0x" ++ Fixtures.sampleRoot)
               [Fixtures.registryC; Fixtures.registryA; Fixtures.registryB])) 1)
  = Some true.
Proof.
  destruct (statuses_follow_registries Fixtures.sampleImports "ropsten"
              ("0x" ++ Fixtures.sampleRoot)
              [Fixtures.registryC; Fixtures.registryA; Fixtures.registryB])
    as (Haddresses & _ & Halone).
  split; [exact Haddresses |].
  rewrite (Halone 1%nat Fixtures.registryA eq_refl). reflexivity.
Defined.

(** X8.  For any list of registries, [ownerOf] is called for a registry
    exactly when that registry is in the list and both [getProvider] and
    [connect] succeeded for it, and then with the token identifier the
    fan-out was given; a registry whose connection failed is never
    queried. *)
Theorem ownerOf_exactly_when_connected :
  forall (I : TokenRegistryStatus.Imports) (options : TokenRegistryStatus.Options I)
         (merkleRoot : string) (tokenRegistries : list string)
         (tokenRegistry identifier : string),
    In (TokenRegistryStatus.CallOwnerOf tokenRegistry identifier)
       (snd (TokenRegistryStatus.registryStatuses I options merkleRoot tokenRegistries))
    <->
    identifier = merkleRoot /\
    In tokenRegistry tokenRegistries /\
    exists provider contract,
      TokenRegistryStatus.getProvider I options = Ok provider /\
      TokenRegistryStatus.connect I tokenRegistry provider = Ok contract.
Proof.
  intros I options merkleRoot tokenRegistries tokenRegistry identifier.
  rewrite registryStatuses_calls. split.
  - intros Hin. apply in_app_or in Hin. destruct Hin as [Hin | Hin];
      apply in_concat in Hin; destruct Hin as [calls [Hcalls Hin]];
      apply in_map_iff in Hcalls; destruct Hcalls as [r [<- Hr]].
    + apply connectRegistry_calls in Hin. destruct Hin; discriminate.
    + rewrite connectRegistry_cases in Hin.
      destruct (TokenRegistryStatus.getProvider I options) as [provider | e];
        cbn [fst] in Hin; rewrite mintedStatus_cases in Hin.
      * destruct (TokenRegistryStatus.connect I r provider) as [contract | e] eqn:Hc;
          cbn [snd] in Hin; [| contradiction].
        destruct Hin as [Heq | []]. injection Heq as -> ->.
        repeat split; [assumption |]. eauto.
      * contradiction.
  - intros [-> [Hin [provider [contract [Hprovider Hconnect]]]]].
    apply in_or_app. right. apply in_concat.
    exists [TokenRegistryStatus.CallOwnerOf tokenRegistry merkleRoot].
    split; [| now left].
    apply in_map_iff. exists tokenRegistry. split; [| assumption].
    rewrite connectRegistry_cases, Hprovider. cbn [fst].
    rewrite mintedStatus_cases, Hconnect. reflexivity.
Qed.

Lemma ownerOf_exactly_when_connected_witness :
  In (TokenRegistryStatus.CallOwnerOf Fixtures.registryB ("0x" ++ Fixtures.sampleRoot))
     (snd (TokenRegistryStatus.registryStatuses Fixtures.sampleImports "ropsten"
             ("0x" ++ Fixtures.sampleRoot) [Fixtures.registryA; Fixtures.registryB])).
Proof.
  apply (ownerOf_exactly_when_connected Fixtures.sampleImports "ropsten"
           ("0x" ++ Fixtures.sampleRoot) [Fixtures.registryA; Fixtures.registryB]
           Fixtures.registryB ("0x" ++ Fixtures.sampleRoot)).
  split; [reflexivity |]. split; [simpl; auto |].
  exists "ropsten", Fixtures.registryB. split; reflexivity.
Defined.



(** X10.  An INVALID fragment of [verify] is about exactly one registry: the
    details hold the single status of that registry (flat for v3, a
    one-element array otherwise), that status is not minted, and the
    fragment's reason is that status's reason. *)
Theorem invalid_details_carry_the_reason :
  forall (I : TokenRegistryStatus.Imports) (document : WrappedDocument)
         (options : TokenRegistryStatus.Options I),
    Core.status (fst (TokenRegistryStatus.verify I document options)) = Core.INVALID ->
    exists s,
      TokenRegistryStatus.getIssuersTokenRegistry I document
      = Ok [TokenRegistryStatus.address s] /\
      TokenRegistryStatus.minted s = false /\
      Core.reason (fst (TokenRegistryStatus.verify I document options))
      = TokenRegistryStatus.reason s /\
      Core.data (fst (TokenRegistryStatus.verify I document options))
      = Some (TokenRegistryStatus.Minting false
                (if isWrappedV3Document document
                 then TokenRegistryStatus.First (Some s)
                 else TokenRegistryStatus.All [s])).
Proof.
  intros I document options.
  destruct (TokenRegistryStatus.getIssuersTokenRegistry I document)
    as [tokenRegistries | e] eqn:Hregs.
  - destruct (Nat.ltb_spec 1 (length tokenRegistries)) as [Hlen | Hlen].
    + unfold TokenRegistryStatus.verify. rewrite verifyBody_cases, Hregs.
      apply Nat.ltb_lt in Hlen. rewrite Hlen. discriminate.
    + destruct (at_most_one tokenRegistries Hlen) as [-> | [r ->]].
      * rewrite (verify_reaches_reduction I document options [] Hregs Hlen).
        discriminate.
      * rewrite (verify_single I document options r Hregs). cbn [fst].
        set (s := fst (TokenRegistryStatus.mintedStatus I
                         (TokenRegistryStatus.tokenId document) r
                         (fst (TokenRegistryStatus.connectRegistry I options r)))).
        assert (Haddress : TokenRegistryStatus.address s = r)
          by apply mintedStatus_address.
        clearbody s. unfold TokenRegistryStatus.reduceStatuses. cbn [find nth_error].
        destruct (TokenRegistryStatus.minted s) eqn:Hs; cbn; [discriminate |].
        intros _. exists s. rewrite Haddress. repeat split. exact Hs.
  - unfold TokenRegistryStatus.verify. rewrite verifyBody_cases, Hregs. discriminate.
Qed.

Lemma invalid_details_carry_the_reason_witness :
  exists s,
    TokenRegistryStatus.getIssuersTokenRegistry Fixtures.sampleImports
      Fixtures.documentCallFails
    = Ok [TokenRegistryStatus.address s] /\
    TokenRegistryStatus.minted s = false /\
    Core.reason (fst (TokenRegistryStatus.verify Fixtures.sampleImports
                        Fixtures.documentCallFails "ropsten"))
    = TokenRegistryStatus.reason s /\
    Core.data (fst (TokenRegistryStatus.verify Fixtures.sampleImports
                      Fixtures.documentCallFails "ropsten"))
    = Some (TokenRegistryStatus.Minting false (TokenRegistryStatus.All [s])).
Proof.
  apply (invalid_details_carry_the_reason Fixtures.sampleImports
           Fixtures.documentCallFails "ropsten").
  reflexivity.
Defined.

(** ** Applicability *)

Lemma existsb_same_members {A} (f : A -> bool) (l l' : list A) :
  (forall x, In x l <-> In x l') -> existsb f l = existsb f l'.
Proof.
  intros Hsame. apply eq_true_iff_eq. rewrite !existsb_exists.
  split; intros [x [Hin Hx]]; exists x; split; try assumption; now apply Hsame.
Qed.

(** X11.  [test] on a v3 document asks only whether the proof method is
    TOKEN_REGISTRY.  On a v2 document it is true exactly when some issuer has
    the [tokenRegistry] key, so it is false without issuers and depends on
    which issuers the document has, not on their order or repetition. *)
Theorem test_applicability :
  forall (proofMethod : WrappedDocument -> string) (document : WrappedDocument),
    (version document = V3 ->
     (TokenRegistryStatus.test proofMethod document = true <->
      proofMethod document = "TOKEN_REGISTRY")) /\
    (version document = V2 ->
     (TokenRegistryStatus.test proofMethod document = true <->
      exists issuer registry,
        In issuer (issuers document) /\ tokenRegistry issuer = Some registry) /\
     (issuers document = [] -> TokenRegistryStatus.test proofMethod document = false) /\
     forall document',
       version document' = V2 ->
       (forall issuer, In issuer (issuers document) <-> In issuer (issuers document')) ->
       TokenRegistryStatus.test proofMethod document'
       = TokenRegistryStatus.test proofMethod document).
Proof.
  intros proofMethod document.
  unfold TokenRegistryStatus.test, isWrappedV3Document,
    TokenRegistryStatus.isWrappedV2Document.
  split; intros Hversion; rewrite Hversion.
  - apply String.eqb_eq.
  - split; [| split].
    + rewrite existsb_exists. unfold TokenRegistryStatus.hasTokenRegistry.
      split.
      * intros [issuer [Hin Hkey]].
        destruct (tokenRegistry issuer) as [registry |] eqn:Hregistry;
          [eauto | discriminate].
      * intros [issuer [registry [Hin Hregistry]]]. exists issuer.
        now rewrite Hregistry.
    + now intros ->.
    + intros document' Hversion' Hsame. rewrite Hversion'.
      apply existsb_same_members. intros issuer. symmetry. apply Hsame.
Qed.

Lemma test_applicability_witness :
  TokenRegistryStatus.test (fun _ => "DOCUMENT_STORE") Fixtures.documentTwoRegistries
  = true /\
  TokenRegistryStatus.test (fun _ => "DOCUMENT_STORE") Fixtures.documentNoRegistry
  = false /\
  TokenRegistryStatus.test (fun _ => "TOKEN_REGISTRY") Fixtures.documentNotMintedV3
  = true.
Proof.
  destruct (test_applicability (fun _ => "DOCUMENT_STORE")
              Fixtures.documentTwoRegistries) as [_ Hv2].
  destruct (Hv2 eq_refl) as [Htrue _].
  destruct (test_applicability (fun _ => "TOKEN_REGISTRY")
              Fixtures.documentNotMintedV3) as [Hv3 _].
  split; [| split].
  - apply Htrue.
    exists (Fixtures.issuerWith (Some Fixtures.registryA) None), Fixtures.registryA.
    split; [simpl; auto | reflexivity].
  - reflexivity.
  - apply (Hv3 eq_refl). reflexivity.
Defined.

(** X12.  A VALID fragment is never returned on a failure: [verify] reports
    VALID only when the document has no registry at all, or when its single
    registry was connected and [ownerOf] answered, for the document's token
    identifier, an owner other than the zero address. *)
Theorem valid_only_when_owned :
  forall (I : TokenRegistryStatus.Imports) (document : WrappedDocument)
         (options : TokenRegistryStatus.Options I),
    Core.status (fst (TokenRegistryStatus.verify I document options)) = Core.VALID ->
    TokenRegistryStatus.getIssuersTokenRegistry I document = Ok [] \/
    exists tokenRegistry provider contract owner,
      TokenRegistryStatus.getIssuersTokenRegistry I document = Ok [tokenRegistry] /\
      TokenRegistryStatus.getProvider I options = Ok provider /\
      TokenRegistryStatus.connect I tokenRegistry provider = Ok contract /\
      TokenRegistryStatus.ownerOf I contract (TokenRegistryStatus.tokenId document)
      = Ok owner /\
      owner <> TokenRegistryStatus.AddressZero.
Proof.
  intros I document options.
  destruct (TokenRegistryStatus.getIssuersTokenRegistry I document)
    as [tokenRegistries | e] eqn:Hregs.
  - destruct (Nat.ltb_spec 1 (length tokenRegistries)) as [Hlen | Hlen].
    + unfold TokenRegistryStatus.verify. rewrite verifyBody_cases, Hregs.
      apply Nat.ltb_lt in Hlen. rewrite Hlen. discriminate.
    + destruct (at_most_one tokenRegistries Hlen) as [-> | [r ->]]; [now left |].
      rewrite (verify_single I document options r Hregs). cbn [fst].
      rewrite reduceStatuses_status. cbn [forallb]. rewrite andb_true_r.
      rewrite connectRegistry_cases.
      destruct (TokenRegistryStatus.getProvider I options) as [provider | e];
        cbn [fst]; rewrite mintedStatus_cases; [| discriminate].
      destruct (TokenRegistryStatus.connect I r provider) as [contract | e] eqn:Hconnect;
        cbn [fst]; [| discriminate].
      destruct (TokenRegistryStatus.ownerOf I contract
                  (TokenRegistryStatus.tokenId document)) as [owner | e] eqn:Howner;
        cbn [TokenRegistryStatus.minted]; [| discriminate].
      destruct (String.eqb_spec owner TokenRegistryStatus.AddressZero) as [Hz | Hnz];
        cbn [negb]; [discriminate |].
      intros _. right. exists r, provider, contract, owner. repeat split; assumption.
  - unfold TokenRegistryStatus.verify. rewrite verifyBody_cases, Hregs. discriminate.
Qed.

Lemma valid_only_when_owned_witness :
  TokenRegistryStatus.getIssuersTokenRegistry Fixtures.sampleImports
    Fixtures.documentMinted = Ok [] \/
  exists tokenRegistry provider contract owner,
    TokenRegistryStatus.getIssuersTokenRegistry Fixtures.sampleImports
      Fixtures.documentMinted = Ok [tokenRegistry] /\
    TokenRegistryStatus.getProvider Fixtures.sampleImports "ropsten" = Ok provider /\
    TokenRegistryStatus.connect Fixtures.sampleImports tokenRegistry provider
    = Ok contract /\
    TokenRegistryStatus.ownerOf Fixtures.sampleImports contract
      (TokenRegistryStatus.tokenId Fixtures.documentMinted) = Ok owner /\
    owner <> TokenRegistryStatus.AddressZero.
Proof.
  apply (valid_only_when_owned Fixtures.sampleImports Fixtures.documentMinted "ropsten").
  reflexivity.
Defined.
